(** * Ivan item tracker: the tracker state engine

    A shallow embedding of [tracker/item.go] and of the lookup and reset
    methods of [tracker/tracker.go], with the properties of the item
    transition rules, the zone/item keypad addressing and [Reset].

    Conventions
    - Go's [int] is the 64-bit two's-complement integer of the released
      targets (linux64, windows, macOS): values are [Z], every [+] and [-]
      of the source is followed by its wrap-around ([GoInt.add],
      [GoInt.sub]), and [%] is the truncated remainder ([GoInt.rem]).
    - A slice is a [list]; indexing a slice out of range panics, which the
      embedding shows as [None].
    - A method with a pointer receiver is a computation in the state monad
      over its receiver: [runState m s] is [(result, s')]. *)

From Stdlib Require Import ZArith List String Ascii Bool Lia DecimalString.
From ExtLib Require Import Structures.Monad Structures.MonadState.
From ExtLib Require Import Data.Monads.StateMonad Data.Monads.OptionMonad.
Import ListNotations.
Import MonadNotation.
Local Open Scope monad_scope.
Local Open Scope Z_scope.
Local Set Warnings "-register-all".

(** ** Go's machine integers and slices *)

Module GoInt.

Definition bits : Z := 64.
Definition min_int : Z := - 2 ^ (bits - 1).
Definition max_int : Z := 2 ^ (bits - 1) - 1.

(** Two's-complement wrap-around of a mathematical result. *)
Definition wrap (z : Z) : Z := (z - min_int) mod 2 ^ bits + min_int.

Definition add (a b : Z) : Z := wrap (a + b).
Definition sub (a b : Z) : Z := wrap (a - b).

(** Go's [%] truncates towards zero: the result has the sign of [a]. *)
Definition rem (a b : Z) : Z := Z.rem a b.

Definition in_range (z : Z) : Prop := min_int <= z <= max_int.

(** [len(s)] *)
Definition len {A : Type} (s : list A) : Z := Z.of_nat (List.length s).

(** [s[i]]: [None] is the run-time panic of an index out of range. *)
Definition index {A : Type} (s : list A) (i : Z) : option A :=
  if (0 <=? i) && (i <? len s) then nth_error s (Z.to_nat i) else None.

(** [strconv.Itoa] / the [%d] verb. *)
Definition itoa (z : Z) : string := NilZero.string_of_int (Z.to_int z).

End GoInt.

Import GoInt.

(** [a * b] and the truncated [a / b] of Go's [int]. *)
Definition mul (a b : Z) : Z := wrap (a * b).
Definition quo (a b : Z) : Z := wrap (Z.quot a b).

(** ** Go's [image] package: points and rectangles

    [image.Rect] orders its corners; a point is in a rectangle when it is
    at or after [Min] and before [Max] on both axes. *)

Module image.

Record Point : Type := mkPoint { X : Z; Y : Z }.

Record Rectangle : Type := mkRectangle { Min : Point; Max : Point }.

Definition Rect (x0 y0 x1 y1 : Z) : Rectangle :=
  let '(x0, x1) := if x0 >? x1 then (x1, x0) else (x0, x1) in
  let '(y0, y1) := if y0 >? y1 then (y1, y0) else (y0, y1) in
  mkRectangle (mkPoint x0 y0) (mkPoint x1 y1).

Definition In (p : Point) (r : Rectangle) : bool :=
  (X (Min r) <=? X p) && (X p <? X (Max r)) &&
  (Y (Min r) <=? Y p) && (Y p <? Y (Max r)).

End image.

(** ** [tracker/item.go] *)

Inductive Item : Type := mkItem {
  Name : string;
  X : Z; Y : Z;                        (* position over the background *)
  SheetX : Z; SheetY : Z;              (* origin in the spritesheet *)
  CapacityProgression : list Z;
  ItemProgression : list Item;
  upgradeIndex : Z; templeIndex : Z;
  CountMax : Z; CountStep : Z; count : Z;
  IsMedallion : bool; IsSong : bool; Enabled : bool
}.

(** Assignments to the four fields the methods write. *)

Definition with_Enabled (b : bool) (item : Item) : Item :=
  mkItem (Name item) (X item) (Y item) (SheetX item) (SheetY item)
    (CapacityProgression item) (ItemProgression item)
    (upgradeIndex item) (templeIndex item)
    (CountMax item) (CountStep item) (count item)
    (IsMedallion item) (IsSong item) b.

Definition with_count (c : Z) (item : Item) : Item :=
  mkItem (Name item) (X item) (Y item) (SheetX item) (SheetY item)
    (CapacityProgression item) (ItemProgression item)
    (upgradeIndex item) (templeIndex item)
    (CountMax item) (CountStep item) c
    (IsMedallion item) (IsSong item) (Enabled item).

Definition with_upgradeIndex (i : Z) (item : Item) : Item :=
  mkItem (Name item) (X item) (Y item) (SheetX item) (SheetY item)
    (CapacityProgression item) (ItemProgression item)
    i (templeIndex item)
    (CountMax item) (CountStep item) (count item)
    (IsMedallion item) (IsSong item) (Enabled item).

Definition with_templeIndex (i : Z) (item : Item) : Item :=
  mkItem (Name item) (X item) (Y item) (SheetX item) (SheetY item)
    (CapacityProgression item) (ItemProgression item)
    (upgradeIndex item) i
    (CountMax item) (CountStep item) (count item)
    (IsMedallion item) (IsSong item) (Enabled item).

(** [HasCapacity], [IsCountable] and [Count] only read their receiver. *)

Definition HasCapacity (item : Item) : bool :=
  len (CapacityProgression item) >? 0.

Definition IsCountable (item : Item) : bool :=
  negb (CountMax item =? 0).

Definition Count (item : Item) : Z := count item.

(** [Capacity]: the selected capacity, or -1 when there is none to display.
    [None] is the panic of [CapacityProgression[upgradeIndex]]. *)
Definition Capacity (item : Item) : option Z :=
  if negb (HasCapacity item) then Some (-1)
  else if IsCountable item then Some (upgradeIndex item)
  else index (CapacityProgression item) (upgradeIndex item).

Definition countDown : state Item unit :=
  item <- get ;;
  let item := with_count (sub (count item) (CountStep item)) item in
  if count item <? 0
  then put (with_Enabled false (with_count 0 item))
  else put item.

Definition countUp : state Item unit :=
  item <- get ;;
  let item := with_count (add (count item) (CountStep item)) item in
  if count item >? CountMax item
  then put (with_count (CountMax item) item)
  else put item.

(** [Upgrade]: the result is false when the item was not affected. *)
Definition Upgrade : state Item bool :=
  item <- get ;;
  if negb (Enabled item) then
    put (with_Enabled true item) ;; ret true
  else if IsCountable item then
    countUp ;; ret true
  else
    let max :=
      if len (ItemProgression item) >? 0 then len (ItemProgression item)
      else if len (CapacityProgression item) >? 0
           then len (CapacityProgression item)
           else 0 in
    if (max =? 0) || (add (upgradeIndex item) 1 >=? max) then
      ret false
    else
      put (with_upgradeIndex (rem (add (upgradeIndex item) 1) max) item) ;;
      ret true.

(** [Downgrade]: the result is false when the item was not affected. *)
Definition Downgrade : state Item bool :=
  item <- get ;;
  if negb (Enabled item) then
    ret false
  else if IsCountable item then
    countDown ;; ret true
  else
    let max :=
      if len (ItemProgression item) >? 0 then len (ItemProgression item)
      else if len (CapacityProgression item) >? 0
           then len (CapacityProgression item)
           else 0 in
    if (max =? 0) || (sub (upgradeIndex item) 1 <? 0) then
      put (with_Enabled false item) ;; ret true
    else
      put (with_upgradeIndex (rem (sub (upgradeIndex item) 1) max) item) ;;
      ret true.

(** The label table of the medallions. *)
Definition temples : list string :=
  [ ""; "Free";
    "Deku"; "DC"; "Jabu";
    "Forest"; "Fire"; "Water";
    "Spirit"; "Shdw" ]%string.

Definition CycleTemple (up : bool) : state Item unit :=
  item <- get ;;
  if up then
    put (with_templeIndex (rem (add (templeIndex item) 1) (len temples)) item)
  else if sub (templeIndex item) 1 <? 0 then
    put (with_templeIndex (sub (len temples) 1) item)
  else
    put (with_templeIndex (sub (templeIndex item) 1) item).

(** [TempleText]: [None] is the panic of [temples[templeIndex]]. *)
Definition TempleText (item : Item) : option string :=
  index temples (templeIndex item).

(** The grid of the background and the sprites on it. The margins are
    constant expressions: [(42 - 34) / 2]. *)
Definition gridSize : Z := 42.
Definition itemSpriteWidth : Z := 34.
Definition itemSpriteHeight : Z := itemSpriteWidth.
Definition marginTop : Z := Z.quot (gridSize - itemSpriteHeight) 2.
Definition marginLeft : Z := Z.quot (gridSize - itemSpriteWidth) 2.

(** [Rect]: the position of the item relative to the background origin. *)
Definition Rect (item : Item) : image.Rectangle :=
  image.Rect
    (add marginLeft (X item))
    (add marginTop (Y item))
    (add (add marginLeft (X item)) itemSpriteWidth)
    (add (add marginTop (Y item)) itemSpriteHeight).

(** [SheetRect]: the position of the sprite on the spritesheet. [None] is
    the panic of [ItemProgression[upgradeIndex]]. *)
Definition SheetRect (item : Item) : option image.Rectangle :=
  let origin :=
    if len (ItemProgression item) >? 0 then
      if Enabled item then
        match index (ItemProgression item) (upgradeIndex item) with
        | Some variant => Some (SheetX variant, SheetY variant)
        | None => None
        end
      else
        match index (ItemProgression item)
                    (sub (len (ItemProgression item)) 1) with
        | Some variant => Some (SheetX variant, SheetY variant)
        | None => None
        end
    else Some (SheetX item, SheetY item) in
  match origin with
  | Some (x, y) =>
      Some (image.Rect x y (add x itemSpriteWidth) (add y itemSpriteHeight))
  | None => None
  end.

(** [CycleTempleUp] has an empty body. *)
Definition CycleTempleUp : state Item unit := ret tt.

(** ** [tracker/tracker.go] *)

(** [errors.New(text)]; [fmt.Errorf] builds the same kind of value from
    its formatted text. *)
Inductive error : Type := errors_New (text : string).

Definition fmt_Errorf (text : string) : error := errors_New text.

(** [ZoneItemMap] is [[9][9]string]: nine rows of nine names. A cell the
    rows do not list holds the zero value of a Go string. [GetZoneItem]
    reads a cell only after it has checked both indices. *)
Definition ZoneItemMap : Type := list (list string).

Definition cell (m : ZoneItemMap) (zone item : Z) : string :=
  nth (Z.to_nat item) (nth (Z.to_nat zone) m []) ""%string.

(** Modelled from the spec: the declaration of [undoStackEntry] is in the
    undo handling of the package, which this development does not cover;
    the spec gives a history entry as
    [{item_index: int, was_upgrade: bool}]. *)
Record undoStackEntry : Type := mkUndoStackEntry {
  itemIndex : Z;
  isUpgrade : bool
}.

(** Modelled from the spec: the declaration of [kbInput] is in the keyboard
    handling of the package, which this development does not cover; the
    spec gives the input state as a mode tag, the partially entered buffer
    and the keypad zone the overlay highlights. *)
Inductive inputState : Type :=
| inputStateIdle
| inputStateItemKPZoneInput
| inputStateItemInput
| inputStateTextInput.

Record kbInput : Type := mkKbInput {
  inputMode : inputState;
  buf : string;
  activeKPZone : Z
}.

(** The tracker, without the handles of its images and fonts and without
    its screen geometry, which none of the methods below reads. *)
Record Tracker : Type := mkTracker {
  items : list Item;
  zoneItemMap : ZoneItemMap;
  locations : list string;
  input : kbInput;
  woths : list string;
  barrens : list string;
  always : list string;       (* [7]string: skull, bigg, 30, 40, 50, OOT, frogs 2 *)
  sometimes : list string;    (* freeform input *)
  undoStack : list undoStackEntry;
  redoStack : list undoStackEntry
}.

Definition GetZoneItem (zoneKP itemKP : Z) : state Tracker (string * option error) :=
  tracker <- get ;;
  if (zoneKP <=? 0) || (zoneKP >? 9) then
    ret (""%string, Some (errors_New "invalid zoneKP, must be [1-9]"))
  else if (itemKP <=? 0) || (itemKP >? 9) then
    ret (""%string, Some (errors_New "invalid itemKP, must be [1-9]"))
  else
    let name := cell (zoneItemMap tracker) (sub zoneKP 1) (sub itemKP 1) in
    if (name =? "")%string then
      ret (""%string,
           Some (fmt_Errorf ("no item defined for zone " ++ itoa zoneKP
                             ++ " item " ++ itoa itemKP)))
    else
      ret (name, None).

(** The loop of [getItemIndexByName], from position [k] on; [k] counts the
    elements of a slice and cannot overflow. *)
Fixpoint indexByNameFrom (name : string) (k : Z) (s : list Item) : Z :=
  match s with
  | [] => -1
  | item :: rest =>
      if (Name item =? name)%string then k
      else indexByNameFrom name (k + 1) rest
  end.

Definition getItemIndexByName (name : string) : state Tracker Z :=
  tracker <- get ;;
  ret (indexByNameFrom name 0 (items tracker)).

Definition GetZoneItemIndex (zoneKP itemKP : Z) : state Tracker (Z * option error) :=
  r <- GetZoneItem zoneKP itemKP ;;
  let '(name, err) := r in
  match err with
  | Some e => ret (-1, Some e)
  | None =>
      index <- getItemIndexByName name ;;
      if index <? 0 then
        ret (-1, Some (fmt_Errorf ("item name misconfigured: " ++ name)))
      else
        ret (index, None)
  end.

(** An assignment to one field of the receiver. *)
Definition assign (f : Tracker -> Tracker) : state Tracker unit :=
  tracker <- get ;; put (f tracker).

Definition Reset (newItems : list Item) (newZoneItemMap : ZoneItemMap)
  : state Tracker unit :=
  assign (fun t => mkTracker newItems (zoneItemMap t) (locations t) (input t)
            (woths t) (barrens t) (always t) (sometimes t)
            (undoStack t) (redoStack t)) ;;
  assign (fun t => mkTracker (items t) newZoneItemMap (locations t) (input t)
            (woths t) (barrens t) (always t) (sometimes t)
            (undoStack t) (redoStack t)) ;;
  assign (fun t => mkTracker (items t) (zoneItemMap t) (locations t) (input t)
            (woths t) (barrens t) (always t) (sometimes t)
            (firstn 0 (undoStack t)) (redoStack t)) ;;
  assign (fun t => mkTracker (items t) (zoneItemMap t) (locations t) (input t)
            (woths t) (barrens t) (always t) (sometimes t)
            (undoStack t) (firstn 0 (redoStack t))) ;;
  assign (fun t => mkTracker (items t) (zoneItemMap t) (locations t) (input t)
            (firstn 0 (woths t)) (barrens t) (always t) (sometimes t)
            (undoStack t) (redoStack t)) ;;
  assign (fun t => mkTracker (items t) (zoneItemMap t) (locations t) (input t)
            (woths t) (firstn 0 (barrens t)) (always t) (sometimes t)
            (undoStack t) (redoStack t)) ;;
  assign (fun t => mkTracker (items t) (zoneItemMap t) (locations t) (input t)
            (woths t) (barrens t) (always t) (firstn 0 (sometimes t))
            (undoStack t) (redoStack t)) ;;
  assign (fun t => mkTracker (items t) (zoneItemMap t) (locations t) (input t)
            (woths t) (barrens t) (repeat ""%string 7) (sometimes t)
            (undoStack t) (redoStack t)).

(** The loop of [getItemIndexByPos], from position [k] on. *)
Fixpoint indexByPosFrom (p : image.Point) (k : Z) (s : list Item) : Z :=
  match s with
  | [] => -1
  | item :: rest =>
      if image.In p (Rect item) then k
      else indexByPosFrom p (k + 1) rest
  end.

(** [getItemIndexByPos]: the index of the item at the given position, or -1
    if there is no item under the given pixel. *)
Definition getItemIndexByPos (x y : Z) : state Tracker Z :=
  tracker <- get ;;
  ret (indexByPosFrom (image.mkPoint x y) 0 (items tracker)).

(** *** Methods that index the catalog

    [tracker.items[i]] panics when [i] is out of range: these methods run
    in the state monad of the tracker over [option], where [None] is the
    panic. *)

Definition panicking : Type -> Type := stateT Tracker option.

#[global] Instance Monad_panicking : Monad panicking :=
  Monad_stateT Tracker Monad_option.

(** A method that cannot panic, as a step of one that can. *)
Definition total {A : Type} (m : state Tracker A) : panicking A :=
  mkStateT (fun tracker => Some (runState m tracker)).

(** [s[i] = x] on a slice, for [i] in range. *)
Fixpoint setNth {A : Type} (n : nat) (x : A) (s : list A) : list A :=
  match s, n with
  | [], _ => []
  | _ :: rest, O => x :: rest
  | a :: rest, S n' => a :: setNth n' x rest
  end.

Definition withItems (s : list Item) (t : Tracker) : Tracker :=
  mkTracker s (zoneItemMap t) (locations t) (input t)
    (woths t) (barrens t) (always t) (sometimes t)
    (undoStack t) (redoStack t).

(** A method of [Item] called on [tracker.items[i]]: the element is
    written in place. *)
Definition onItem {A : Type} (i : Z) (m : state Item A) : panicking A :=
  mkStateT (fun tracker =>
    match index (items tracker) i with
    | None => None
    | Some item =>
        let (a, item') := runState m item in
        Some (a, withItems (setNth (Z.to_nat i) item' (items tracker)) tracker)
    end).

(** A field of [tracker.items[i]], read. *)
Definition itemAt {A : Type} (i : Z) (field : Item -> A) : panicking A :=
  mkStateT (fun tracker =>
    match index (items tracker) i with
    | None => None
    | Some item => Some (field item, tracker)
    end).

(** The drawing calls of the tracker, in the order they are issued: a text
    in one of the two faces, or a translucent rectangle. [DrawRect] takes
    its four numbers as [float64]; they are the integers converted there. *)
Inductive fontFace : Type := fontCapacity | fontTemple.

Inductive drawCall : Type :=
| text_Draw (str : string) (face : fontFace) (x y : Z)
| DrawRect (x y width height : Z).

(** [drawActiveItemSlot]: the highlight of a keypad zone. *)
Definition drawActiveItemSlot (slot : Z) : option (list drawCall) :=
  if (slot <=? 0) || (slot >? 9) then Some []
  else
    match index [0; 6; 7; 8; 3; 4; 5; 0; 1; 2] slot with
    | None => None
    | Some slot =>
        let edge := mul gridSize 3 in
        let posX := mul (rem slot 3) edge in
        let posY := mul (quo slot 3) edge in
        let size := (126, 126) in
        let '(posY, size) :=
          if slot =? 2 then
            (0, (gridSize, add (mul 4 gridSize) (quo gridSize 2)))
          else if slot =? 8 then
            let posY := add (mul 4 gridSize) (quo gridSize 2) in
            (posY, (gridSize, posY))
          else (posY, size) in
        Some [DrawRect posX posY (fst size) (snd size)]
    end.

(** The loop of [drawTemples]. *)
Fixpoint drawTemplesOf (s : list Item) : option (list drawCall) :=
  match s with
  | [] => Some []
  | item :: rest =>
      if negb (IsMedallion item) then drawTemplesOf rest
      else
        let rect := Rect item in
        let x := image.X (image.Min rect) in
        let y := image.Y (image.Max rect) in
        match TempleText item with
        | None => None
        | Some label =>
            match drawTemplesOf rest with
            | None => None
            | Some calls => Some (text_Draw label fontTemple x y :: calls)
            end
        end
  end.

Definition drawTemples : panicking (list drawCall) :=
  mkStateT (fun tracker =>
    match drawTemplesOf (items tracker) with
    | None => None
    | Some calls => Some (calls, tracker)
    end).

(** One turn of the loop of [drawCapacities]: [None] is a panic,
    [Some None] the [continue] of an item that shows no number. *)
Definition drawCapacity (item : Item) : option (option drawCall) :=
  let shown :=
    if HasCapacity item then
      match Capacity item with
      | None => None
      | Some c => Some (Some c)
      end
    else if IsCountable item then Some (Some (Count item))
    else Some None in
  match shown with
  | None => None
  | Some None => Some None
  | Some (Some count) =>
      if negb (Enabled item) then Some None
      else
        let rect := Rect item in
        let x := image.X (image.Min rect) in
        let y := image.Y (image.Max rect) in
        let '(x, y) :=
          if (Name item =? "Gold Skulltula Token")%string then
            let x := add (add (image.X (image.Min rect)) gridSize) marginLeft in
            let y := add (add (image.Y (image.Min rect)) marginTop)
                         (quo gridSize 2) in
            if count =? 100 then (sub x 5, y)
            else if count <? 10 then (add x 5, y)
            else (x, y)
          else (x, y) in
        Some (Some (text_Draw (itoa count) fontCapacity x y))
  end.

Fixpoint drawCapacitiesOf (s : list Item) : option (list drawCall) :=
  match s with
  | [] => Some []
  | item :: rest =>
      match drawCapacity item with
      | None => None
      | Some drawn =>
          match drawCapacitiesOf rest with
          | None => None
          | Some calls =>
              Some (match drawn with
                    | Some c => c :: calls
                    | None => calls
                    end)
          end
      end
  end.

Definition drawCapacities : panicking (list drawCall) :=
  mkStateT (fun tracker =>
    match drawCapacitiesOf (items tracker) with
    | None => None
    | Some calls => Some (calls, tracker)
    end).

Section Pointer.

(** [appendToUndoStack] is declared with the undo handling of the package,
    which this development does not cover: the methods that call it are
    given for any such method. *)
Variable appendToUndoStack : Z -> bool -> panicking unit.

Definition changeItem (itemIndex : Z) (isUpgrade : bool) : panicking unit :=
  changed <- onItem itemIndex (if isUpgrade then Upgrade else Downgrade) ;;
  if changed : bool then appendToUndoStack itemIndex isUpgrade
  else ret tt.

(** [ClickLeft] upgrades the item under the given point. *)
Definition ClickLeft (x y : Z) : panicking unit :=
  i <- total (getItemIndexByPos x y) ;;
  if i <? 0 then ret tt
  else changeItem i true.

(** [ClickRight] downgrades the item under the given point. *)
Definition ClickRight (x y : Z) : panicking unit :=
  i <- total (getItemIndexByPos x y) ;;
  if i <? 0 then ret tt
  else changeItem i false.

Definition Wheel (x y : Z) (up : bool) : panicking unit :=
  i <- total (getItemIndexByPos x y) ;;
  if i <? 0 then ret tt
  else
    medallion <- itemAt i IsMedallion ;;
    if medallion : bool then onItem i (CycleTemple up)
    else if up then ClickLeft x y
    else ClickRight x y.

End Pointer.

(** * Vocabulary of the properties *)

(** ** The tiers of an item

    [tiers] is the bound both [Upgrade] and [Downgrade] compute into their
    local [max], in the words of the transition rules: the length of
    [ItemProgression] if that is non-empty, else the length of
    [CapacityProgression]. *)
Definition tiers (item : Item) : Z :=
  match ItemProgression item with
  | [] => len (CapacityProgression item)
  | _ :: _ => len (ItemProgression item)
  end.

(** What holds of every item the program builds: a slice is no longer than
    the largest [int], and the unexported [upgradeIndex], zero when the
    configuration is decoded, is only moved by [Upgrade] and [Downgrade],
    which keep it among the tiers ([Upgrade_index_ok], [Downgrade_index_ok],
    [CycleTemple_index_ok], [decoded_index_ok]). *)
Definition index_ok (item : Item) : Prop :=
  tiers item <= max_int /\
  0 <= upgradeIndex item /\
  (upgradeIndex item = 0 \/ upgradeIndex item < tiers item).

(** ** Sequences of calls

    The three methods that write an item, and what a list of such calls
    leaves of an item. *)
Inductive call : Type :=
| CallUpgrade
| CallDowngrade
| CallCycleTemple (up : bool).

Definition perform (c : call) : state Item unit :=
  match c with
  | CallUpgrade => Upgrade ;; ret tt
  | CallDowngrade => Downgrade ;; ret tt
  | CallCycleTemple up => CycleTemple up
  end.

Fixpoint performAll (cs : list call) : state Item unit :=
  match cs with
  | [] => ret tt
  | c :: cs' => perform c ;; performAll cs'
  end.

Definition after (cs : list call) (item : Item) : Item :=
  execState (performAll cs) item.

(** The items of a running program: decoded from the configuration, which
    leaves the unexported fields at zero, then written by the methods. *)
Inductive built : Item -> Prop :=
| built_decoded (item : Item) :
    tiers item <= max_int ->
    upgradeIndex item = 0 -> templeIndex item = 0 -> count item = 0 ->
    built item
| built_call (c : call) (item : Item) :
    built item -> built (after [c] item).

(** What the methods keep of the unexported fields besides [index_ok]: a
    disabled item is at tier 0 with count 0, a countable item never leaves
    tier 0, and an item that is not countable never counts. *)
Definition fields_ok (item : Item) : Prop :=
  index_ok item /\
  (Enabled item = false -> upgradeIndex item = 0 /\ count item = 0) /\
  (CountMax item <> 0 -> upgradeIndex item = 0) /\
  (CountMax item = 0 -> count item = 0).

(** The rectangle of a sprite with its origin at [(x, y)] on the sheet. *)
Definition spriteAt (x y : Z) : image.Rectangle :=
  image.Rect x y (add x itemSpriteWidth) (add y itemSpriteHeight).

(** An item with three sprite variants and two capacities. *)
Definition wallet : Item :=
  mkItem "Wallet" 168 0 0 0 [200; 500]
    [ mkItem "Adult Wallet" 0 0 136 0 [] [] 0 0 0 0 0 false false false;
      mkItem "Giant Wallet" 0 0 170 0 [] [] 0 0 0 0 0 false false false;
      mkItem "Tycoon Wallet" 0 0 204 0 [] [] 0 0 0 0 0 false false false ]
    0 0 0 0 0 false false true.

(** Modelled from the spec: [appendToUndoStack] is declared with the undo
    handling of the package, which this development does not cover; the
    spec has it append the entry to the undo stack and clear the redo
    stack. It only serves as an instance for the concrete runs. *)
Definition recordChange (itemIndex : Z) (isUpgrade : bool) : panicking unit :=
  mkStateT (fun t =>
    Some (tt, mkTracker (items t) (zoneItemMap t) (locations t) (input t)
                (woths t) (barrens t) (always t) (sometimes t)
                (undoStack t ++ [mkUndoStackEntry itemIndex isUpgrade]) [])).

(** The label [drawTemples] puts under a medallion. *)
Definition templeLabel (item : Item) : drawCall :=
  text_Draw (nth (Z.to_nat (templeIndex item)) temples ""%string) fontTemple
    (image.X (image.Min (Rect item))) (image.Y (image.Max (Rect item))).

(** The text of a drawing call, the items that show a number, and the
    number they show. *)
Definition drawnText (c : drawCall) : string :=
  match c with
  | text_Draw str _ _ _ => str
  | DrawRect _ _ _ _ => ""%string
  end.

Definition showsNumber (item : Item) : bool :=
  Enabled item && (HasCapacity item || IsCountable item).

Definition numberShown (item : Item) : string :=
  itoa (if HasCapacity item
        then match Capacity item with Some c => c | None => 0 end
        else count item).

(** Items of the kinds the configuration lists, for the concrete runs. *)

Definition bombBag : Item :=
  mkItem "Bomb Bag" 84 0 0 0 [20; 30; 40] [] 0 0 0 0 0 false false false.

Definition skullToken : Item :=
  mkItem "Gold Skulltula Token" 0 42 0 34 [] [] 0 0 100 1 0 false false false.

Definition medallion : Item :=
  mkItem "Forest Medallion" 0 84 0 68 [] [] 0 0 0 0 0 true false false.

(** An item that is countable and has a [CapacityProgression] as well. *)
Definition bombchu : Item :=
  mkItem "Bombchu" 126 0 102 0 [5; 10; 20] [] 0 0 50 5 0 false false true.

(** A counter whose step is the largest [int]. *)
Definition greedyCounter : Item :=
  mkItem "Gold Skulltula Token" 0 42 0 34 [] [] 0 0 1 max_int 0 false false true.

(** ** The kinds of error of the keypad addressing *)

(** A digit is outside [[1, 9]]. *)
Definition range_error (e : error) : Prop :=
  e = errors_New "invalid zoneKP, must be [1-9]" \/
  e = errors_New "invalid itemKP, must be [1-9]".

(** The addressed cell of the zone-item map is empty. *)
Definition undefined_error (zoneKP itemKP : Z) : error :=
  fmt_Errorf ("no item defined for zone " ++ itoa zoneKP
              ++ " item " ++ itoa itemKP).

(** The addressed cell names an item the catalog does not have. *)
Definition misconfigured_error (name : string) : error :=
  fmt_Errorf ("item name misconfigured: " ++ name).

(** A tracker with a catalog of three items and "Hookshot" at the centre
    of its zone-item map. *)
Definition hookshot : Item :=
  mkItem "Hookshot" 42 0 34 0 [] [] 0 0 0 0 0 false false false.

Definition emptyRow : list string := repeat ""%string 9.

Definition centreMap : ZoneItemMap :=
  [ emptyRow; emptyRow; emptyRow; emptyRow;
    [ ""; ""; ""; "Longshot"; "Hookshot"; ""; ""; ""; "" ]%string;
    emptyRow; emptyRow; emptyRow; emptyRow ].

Definition someTracker : Tracker :=
  mkTracker [bombBag; hookshot; skullToken] centreMap ["Deku Tree"%string]
    (mkKbInput inputStateIdle ""%string 0)
    ["Kakariko"%string] [] (repeat ""%string 7) ["30 skulls: bottle"%string]
    [mkUndoStackEntry 1 true; mkUndoStackEntry 0 true]
    [mkUndoStackEntry 2 false].

(** A tracker whose catalog has a medallion. *)
Definition medalTracker : Tracker :=
  mkTracker [bombBag; medallion] [] [] (mkKbInput inputStateIdle ""%string 0)
    [] [] (repeat ""%string 7) [] [] [].

(** The same tracker with the bomb bag enabled at its top tier. *)
Definition topTracker : Tracker :=
  mkTracker [with_Enabled true (with_upgradeIndex 2 bombBag); medallion] [] []
    (mkKbInput inputStateIdle ""%string 0)
    [] [] (repeat ""%string 7) [] [] [].

(** * Properties *)

(** ** Machine arithmetic *)

#[global] Arguments min_int : simpl never.
#[global] Arguments max_int : simpl never.
#[global] Arguments wrap : simpl never.
#[global] Arguments add : simpl never.
#[global] Arguments sub : simpl never.
#[global] Arguments rem : simpl never.
#[global] Arguments len : simpl never.
#[global] Arguments index : simpl never.

Lemma min_int_val : min_int = -9223372036854775808.
Proof. reflexivity. Qed.

Lemma max_int_val : max_int = 9223372036854775807.
Proof. reflexivity. Qed.

Lemma wrap_in_range (z : Z) : in_range z -> wrap z = z.
Proof.
  unfold in_range, wrap. rewrite min_int_val, max_int_val.
  change (2 ^ bits) with 18446744073709551616.
  intros H. rewrite Z.mod_small; lia.
Qed.

Lemma add_exact (a b : Z) : in_range (a + b) -> add a b = a + b.
Proof. apply wrap_in_range. Qed.

Lemma sub_exact (a b : Z) : in_range (a - b) -> sub a b = a - b.
Proof. apply wrap_in_range. Qed.

Lemma rem_small (a b : Z) : 0 <= a < b -> rem a b = a.
Proof. intros H. unfold rem. apply Z.rem_small. exact H. Qed.

Lemma len_nonneg {A : Type} (s : list A) : 0 <= len s.
Proof. unfold len. lia. Qed.

Lemma len_nil {A : Type} : len (@nil A) = 0.
Proof. reflexivity. Qed.

Lemma len_cons {A : Type} (a : A) (s : list A) : len (a :: s) = len s + 1.
Proof. unfold len. cbn [List.length]. lia. Qed.

Lemma len_zero_nil {A : Type} (s : list A) : len s = 0 -> s = [].
Proof. destruct s; [reflexivity | rewrite len_cons; pose proof (len_nonneg s); lia]. Qed.

(** Boolean tests of the source as propositions. *)
Ltac tests :=
  repeat match goal with
  | |- context [?a >? ?b] => rewrite (Z.gtb_ltb a b)
  | |- context [?a >=? ?b] => rewrite (Z.geb_leb a b)
  | H : context [?a >? ?b] |- _ => rewrite (Z.gtb_ltb a b) in H
  | H : context [?a >=? ?b] |- _ => rewrite (Z.geb_leb a b) in H
  end;
  repeat match goal with
  | |- context [?a <? ?b] => destruct (Z.ltb_spec a b)
  | |- context [?a <=? ?b] => destruct (Z.leb_spec a b)
  | |- context [?a =? ?b] => destruct (Z.eqb_spec a b)
  end.

Lemma tiers_nonneg (item : Item) : 0 <= tiers item.
Proof. unfold tiers. destruct (ItemProgression item); apply len_nonneg. Qed.

Lemma source_max (item : Item) :
  (if len (ItemProgression item) >? 0 then len (ItemProgression item)
   else if len (CapacityProgression item) >? 0
        then len (CapacityProgression item)
        else 0) = tiers item.
Proof.
  unfold tiers. destruct (ItemProgression item) as [|i l].
  - rewrite len_nil. cbn. pose proof (len_nonneg (CapacityProgression item)).
    tests; lia.
  - pose proof (len_nonneg l). rewrite len_cons. tests; lia.
Qed.

Lemma Upgrade_run (item : Item) :
  runState Upgrade item =
  if negb (Enabled item) then (true, with_Enabled true item)
  else if IsCountable item then (true, snd (runState countUp item))
  else if (tiers item =? 0) || (add (upgradeIndex item) 1 >=? tiers item)
       then (false, item)
       else (true, with_upgradeIndex
                     (rem (add (upgradeIndex item) 1) (tiers item)) item).
Proof.
  unfold Upgrade. cbn. rewrite source_max.
  destruct (Enabled item); cbn; [|reflexivity].
  destruct (IsCountable item); cbn.
  - unfold countUp. cbn. destruct (_ >? _); reflexivity.
  - destruct ((tiers item =? 0) || _); reflexivity.
Qed.

Lemma Downgrade_run (item : Item) :
  runState Downgrade item =
  if negb (Enabled item) then (false, item)
  else if IsCountable item then (true, snd (runState countDown item))
  else if (tiers item =? 0) || (sub (upgradeIndex item) 1 <? 0)
       then (true, with_Enabled false item)
       else (true, with_upgradeIndex
                     (rem (sub (upgradeIndex item) 1) (tiers item)) item).
Proof.
  unfold Downgrade. cbn. rewrite source_max.
  destruct (Enabled item); cbn; [|reflexivity].
  destruct (IsCountable item); cbn.
  - unfold countDown. cbn. destruct (_ <? 0); reflexivity.
  - destruct ((tiers item =? 0) || _); reflexivity.
Qed.

Lemma countUp_run (item : Item) :
  runState countUp item =
  (tt, with_count (Z.min (add (count item) (CountStep item)) (CountMax item)) item).
Proof.
  unfold countUp. cbn. tests.
  - rewrite Z.min_r by lia. reflexivity.
  - rewrite Z.min_l by lia. reflexivity.
Qed.

Lemma countDown_run (item : Item) :
  runState countDown item =
  (tt, if sub (count item) (CountStep item) <? 0
       then with_Enabled false (with_count 0 item)
       else with_count (sub (count item) (CountStep item)) item).
Proof.
  unfold countDown. cbn. destruct (_ <? 0); reflexivity.
Qed.

#[global] Arguments countUp : simpl never.
#[global] Arguments countDown : simpl never.

Lemma index_ok_bounds (item : Item) :
  index_ok item ->
  in_range (upgradeIndex item + 1) /\ in_range (upgradeIndex item - 1).
Proof.
  unfold index_ok, in_range. rewrite min_int_val, max_int_val.
  intros (Hlen & Hlo & Hhi). lia.
Qed.

Lemma decoded_index_ok (item : Item) :
  tiers item <= max_int -> upgradeIndex item = 0 -> index_ok item.
Proof. intros Hlen H0. unfold index_ok. rewrite H0. auto with zarith. Qed.

Lemma Upgrade_index_ok (item : Item) :
  index_ok item -> index_ok (snd (runState Upgrade item)).
Proof.
  intros Hok. destruct (index_ok_bounds item Hok) as [Hup _].
  rewrite Upgrade_run.
  destruct (Enabled item); cbn; [|exact Hok].
  destruct (IsCountable item); cbn.
  - rewrite countUp_run. exact Hok.
  - rewrite (add_exact _ _ Hup).
    destruct Hok as (Hlen & Hlo & Hhi).
    tests; cbn; unfold index_ok; cbn; auto.
    rewrite rem_small by lia. change (tiers (with_upgradeIndex _ item)) with (tiers item).
    repeat split; try lia.
Qed.

Lemma Downgrade_index_ok (item : Item) :
  index_ok item -> index_ok (snd (runState Downgrade item)).
Proof.
  intros Hok. destruct (index_ok_bounds item Hok) as [_ Hdown].
  rewrite Downgrade_run.
  destruct (Enabled item); cbn; [|exact Hok].
  destruct (IsCountable item); cbn.
  - rewrite countDown_run. cbn. destruct (_ <? 0); exact Hok.
  - rewrite (sub_exact _ _ Hdown).
    destruct Hok as (Hlen & Hlo & Hhi).
    tests; cbn; unfold index_ok; cbn; auto.
    rewrite rem_small by lia. change (tiers (with_upgradeIndex _ item)) with (tiers item).
    repeat split; try lia.
Qed.

Lemma CycleTemple_index_ok (up : bool) (item : Item) :
  index_ok item -> index_ok (snd (runState (CycleTemple up) item)).
Proof.
  intros Hok. unfold CycleTemple. cbn.
  destruct up; [exact Hok|]. destruct (_ <? 0); exact Hok.
Qed.

(** ** The transition rules of an item *)

(** C1. [Upgrade] follows its three steps. A disabled item is enabled and
    the result is true. An enabled countable item ([CountMax <> 0]) has
    [CountStep] added to its count, the count clamped to [CountMax], and the
    result is true. Any other enabled item, with [max] the number of its
    tiers, is left as it is with result false when [max = 0] or
    [upgradeIndex + 1 >= max], and otherwise has its [upgradeIndex]
    incremented by one with result true. The sum [upgradeIndex + 1] of the
    test is the machine's for every item, and the plain sum for the items
    the program builds ([index_ok]), of which the increment is stated. *)
Theorem Upgrade_three_steps (item : Item) :
  (Enabled item = false ->
     runState Upgrade item = (true, with_Enabled true item)) /\
  (Enabled item = true -> CountMax item <> 0 ->
     runState Upgrade item =
     (true, with_count (Z.min (add (count item) (CountStep item))
                              (CountMax item)) item)) /\
  (Enabled item = true -> CountMax item = 0 ->
     (tiers item = 0 \/ add (upgradeIndex item) 1 >= tiers item ->
        runState Upgrade item = (false, item)) /\
     (index_ok item ->
        (tiers item = 0 \/ upgradeIndex item + 1 >= tiers item ->
           runState Upgrade item = (false, item)) /\
        (tiers item <> 0 -> upgradeIndex item + 1 < tiers item ->
           runState Upgrade item =
           (true, with_upgradeIndex (upgradeIndex item + 1) item)))).
Proof.
  rewrite Upgrade_run, countUp_run. unfold IsCountable.
  split; [|split].
  - intros ->. reflexivity.
  - intros -> Hmax. cbn. destruct (Z.eqb_spec (CountMax item) 0); [contradiction|].
    reflexivity.
  - intros -> ->. cbn. split.
    + intros Htop. tests; cbn; try reflexivity. lia.
    + intros Hok. destruct (index_ok_bounds item Hok) as [Hup _].
      rewrite (add_exact _ _ Hup).
      destruct Hok as (Hlen & Hlo & Hhi).
      split.
      * intros Htop. tests; cbn; try reflexivity. lia.
      * intros Hmax Hbelow. tests; cbn; try lia.
        rewrite rem_small by lia. reflexivity.
Qed.

(** C2. [Downgrade] follows its three steps. A disabled item is left as it
    is and the result is false. An enabled countable item has [CountStep]
    subtracted from its count and, if that is below 0, its count set to 0
    and the item disabled; the result is true either way. Any other enabled
    item is disabled when [max = 0] or [upgradeIndex = 0], and otherwise has
    its [upgradeIndex] decremented by one; the result is true in both
    cases. The decrement is stated of the items the program builds
    ([index_ok]). *)
Theorem Downgrade_three_steps (item : Item) :
  (Enabled item = false ->
     runState Downgrade item = (false, item)) /\
  (Enabled item = true -> CountMax item <> 0 ->
     (sub (count item) (CountStep item) < 0 ->
        runState Downgrade item =
        (true, with_Enabled false (with_count 0 item))) /\
     (0 <= sub (count item) (CountStep item) ->
        runState Downgrade item =
        (true, with_count (sub (count item) (CountStep item)) item))) /\
  (Enabled item = true -> CountMax item = 0 ->
     (tiers item = 0 \/ upgradeIndex item = 0 ->
        runState Downgrade item = (true, with_Enabled false item)) /\
     (index_ok item -> tiers item <> 0 -> upgradeIndex item <> 0 ->
        runState Downgrade item =
        (true, with_upgradeIndex (upgradeIndex item - 1) item))).
Proof.
  rewrite Downgrade_run, countDown_run. unfold IsCountable.
  split; [|split].
  - intros ->. reflexivity.
  - intros -> Hmax. cbn. destruct (Z.eqb_spec (CountMax item) 0); [contradiction|].
    cbn. split; intros Hc; tests; (reflexivity || lia).
  - intros -> ->. cbn. split.
    + intros [Hmax | Hidx].
      * rewrite Hmax. reflexivity.
      * rewrite Hidx. change (sub 0 1 <? 0) with true.
        rewrite orb_true_r. reflexivity.
    + intros Hok Hmax Hpos.
      destruct (index_ok_bounds item Hok) as [_ Hdown].
      rewrite (sub_exact _ _ Hdown).
      destruct Hok as (Hlen & Hlo & Hhi).
      tests; cbn; try lia.
      rewrite rem_small by lia. reflexivity.
Qed.

Lemma bombBag_index_ok (b : bool) (i : Z) :
  0 <= i < 3 -> index_ok (with_Enabled b (with_upgradeIndex i bombBag)).
Proof.
  intros Hi. unfold index_ok. cbn. rewrite max_int_val.
  change (len [20; 30; 40]) with 3. lia.
Defined.

Lemma Upgrade_three_steps_witness :
  runState Upgrade bombBag = (true, with_Enabled true bombBag) /\
  runState Upgrade (with_Enabled true skullToken)
  = (true, with_count 1 (with_Enabled true skullToken)) /\
  runState Upgrade (with_Enabled true (with_upgradeIndex 1 bombBag))
  = (true, with_Enabled true (with_upgradeIndex 2 bombBag)) /\
  runState Upgrade (with_Enabled true (with_upgradeIndex 2 bombBag))
  = (false, with_Enabled true (with_upgradeIndex 2 bombBag)).
Proof.
  split; [|split; [|split]].
  - apply (proj1 (Upgrade_three_steps bombBag)). reflexivity.
  - apply (proj1 (proj2 (Upgrade_three_steps (with_Enabled true skullToken))));
      [reflexivity | discriminate].
  - refine (proj2 (proj2 (proj2 (proj2 (Upgrade_three_steps
                      (with_Enabled true (with_upgradeIndex 1 bombBag))))
                    eq_refl eq_refl)
                  (bombBag_index_ok true 1 _)) _ _);
      [lia | discriminate | reflexivity].
  - refine (proj1 (proj2 (proj2 (Upgrade_three_steps
                      (with_Enabled true (with_upgradeIndex 2 bombBag))))
                    eq_refl eq_refl) _).
    right. discriminate.
Defined.

Lemma Downgrade_three_steps_witness :
  runState Downgrade bombBag = (false, bombBag) /\
  runState Downgrade (with_Enabled true skullToken)
  = (true, skullToken) /\
  runState Downgrade (with_count 5 (with_Enabled true skullToken))
  = (true, with_count 4 (with_Enabled true skullToken)) /\
  runState Downgrade (with_Enabled true (with_upgradeIndex 2 bombBag))
  = (true, with_Enabled true (with_upgradeIndex 1 bombBag)) /\
  runState Downgrade (with_Enabled true bombBag) = (true, bombBag).
Proof.
  split; [|split; [|split; [|split]]].
  - apply (proj1 (Downgrade_three_steps bombBag)). reflexivity.
  - apply (proj1 (proj2 (Downgrade_three_steps (with_Enabled true skullToken)))
             eq_refl ltac:(discriminate)).
    reflexivity.
  - apply (proj1 (proj2 (Downgrade_three_steps
                           (with_count 5 (with_Enabled true skullToken))))
             eq_refl ltac:(discriminate)).
    discriminate.
  - refine (proj2 (proj2 (proj2 (Downgrade_three_steps
                      (with_Enabled true (with_upgradeIndex 2 bombBag))))
                    eq_refl eq_refl)
                  (bombBag_index_ok true 2 _) _ _);
      [lia | discriminate | discriminate].
  - refine (proj1 (proj2 (proj2 (Downgrade_three_steps
                                   (with_Enabled true bombBag)))
                    eq_refl eq_refl) _).
    right. reflexivity.
Defined.

#[global] Arguments Upgrade : simpl never.
#[global] Arguments Downgrade : simpl never.

(** ** Sequences of calls *)

Lemma execState_bind {A B : Type} (m : state Item A) (f : A -> state Item B)
      (item : Item) :
  execState (bind m f) item = execState (f (evalState m item)) (execState m item).
Proof.
  unfold execState, evalState. cbn. destruct (runState m item). reflexivity.
Qed.

Lemma after_cons (c : call) (cs : list call) (item : Item) :
  after (c :: cs) item = after cs (after [c] item).
Proof.
  unfold after. cbn [performAll]. rewrite !execState_bind. reflexivity.
Qed.

Lemma after_app (cs ds : list call) (item : Item) :
  after (cs ++ ds) item = after ds (after cs item).
Proof.
  revert item. induction cs as [|c cs IH]; intros item.
  - reflexivity.
  - cbn [app]. rewrite (after_cons c (cs ++ ds)), (after_cons c cs). apply IH.
Qed.

Lemma after_Upgrade (item : Item) :
  after [CallUpgrade] item = execState Upgrade item.
Proof.
  unfold after. cbn [performAll perform]. rewrite !execState_bind. reflexivity.
Qed.

Lemma after_Downgrade (item : Item) :
  after [CallDowngrade] item = execState Downgrade item.
Proof.
  unfold after. cbn [performAll perform]. rewrite !execState_bind. reflexivity.
Qed.

Lemma after_CycleTemple (up : bool) (item : Item) :
  after [CallCycleTemple up] item = execState (CycleTemple up) item.
Proof.
  unfold after. cbn [performAll perform]. rewrite !execState_bind. reflexivity.
Qed.

(** No call writes the configured fields of an item. *)
Lemma call_frame (c : call) (item : Item) :
  let item' := after [c] item in
  Name item' = Name item /\
  CapacityProgression item' = CapacityProgression item /\
  ItemProgression item' = ItemProgression item /\
  CountMax item' = CountMax item /\
  CountStep item' = CountStep item.
Proof.
  destruct c; cbv zeta.
  - rewrite after_Upgrade. unfold execState. rewrite Upgrade_run, countUp_run.
    destruct (negb _); [|destruct (IsCountable _); [|destruct (_ || _)]];
      cbn; auto.
  - rewrite after_Downgrade. unfold execState.
    rewrite Downgrade_run, countDown_run.
    destruct (negb _);
      [|destruct (IsCountable _); [destruct (_ <? 0)|destruct (_ || _)]];
      cbn; auto.
  - rewrite after_CycleTemple. unfold execState, CycleTemple. cbn.
    destruct up; [|destruct (_ <? 0)]; cbn; auto.
Qed.

Lemma tiers_frame (c : call) (item : Item) : tiers (after [c] item) = tiers item.
Proof.
  destruct (call_frame c item) as (_ & Hcap & Hprog & _).
  unfold tiers. rewrite Hcap, Hprog. reflexivity.
Qed.

Lemma call_index_ok (c : call) (item : Item) :
  index_ok item -> index_ok (after [c] item).
Proof.
  destruct c.
  - rewrite after_Upgrade. apply Upgrade_index_ok.
  - rewrite after_Downgrade. apply Downgrade_index_ok.
  - rewrite after_CycleTemple. apply CycleTemple_index_ok.
Qed.

(** Every item of a running program keeps its index among its tiers. *)
Lemma built_index_ok (item : Item) : built item -> index_ok item.
Proof.
  induction 1 as [item Hlen Hidx _ _ | c item _ IH].
  - apply decoded_index_ok; assumption.
  - apply call_index_ok, IH.
Qed.

(** ** Countable items *)

Section Countable.

Variable item0 : Item.
Hypothesis countable : CountMax item0 <> 0.
Hypothesis step_nonneg : 0 <= CountStep item0.
Hypothesis no_overflow : CountMax item0 + CountStep item0 <= max_int.

(** The bounds of the counter, for an item that kept the configured
    [CountMax] and [CountStep] of [item0]. *)
Let counted (item : Item) : Prop :=
  CountMax item = CountMax item0 /\ CountStep item = CountStep item0 /\
  0 <= count item <= CountMax item0.

Lemma counted_add (item : Item) :
  counted item ->
  add (count item) (CountStep item) = count item + CountStep item.
Proof.
  intros (_ & Hstep & Hc). apply add_exact. rewrite Hstep.
  unfold in_range. rewrite min_int_val. lia.
Qed.

Lemma counted_sub (item : Item) :
  counted item ->
  sub (count item) (CountStep item) = count item - CountStep item.
Proof.
  intros (_ & Hstep & Hc). apply sub_exact. rewrite Hstep.
  unfold in_range. rewrite min_int_val.
  rewrite max_int_val in no_overflow |- *. lia.
Qed.

Lemma Upgrade_counted (item : Item) :
  counted item -> counted (execState Upgrade item).
Proof.
  intros Hc. pose proof (counted_add item Hc) as Hadd.
  destruct Hc as (Hmax & Hstep & Hlo & Hhi).
  unfold execState. rewrite Upgrade_run, countUp_run. unfold IsCountable.
  destruct (Enabled item); cbn; [|repeat split; assumption].
  destruct (Z.eqb_spec (CountMax item) 0) as [E|_]; [congruence|].
  cbn. rewrite Hadd, Hmax, Hstep. repeat split; try assumption; cbn; lia.
Qed.

Lemma Downgrade_counted (item : Item) :
  counted item -> counted (execState Downgrade item).
Proof.
  intros Hc. pose proof (counted_sub item Hc) as Hsub.
  destruct Hc as (Hmax & Hstep & Hlo & Hhi).
  unfold execState. rewrite Downgrade_run, countDown_run. unfold IsCountable.
  destruct (Enabled item); cbn; [|repeat split; assumption].
  destruct (Z.eqb_spec (CountMax item) 0) as [E|_]; [congruence|].
  cbn. rewrite Hsub, Hstep.
  destruct (Z.ltb_spec (count item - CountStep item0) 0);
    cbn; repeat split; try assumption; cbn; lia.
Qed.

Lemma after_counted (cs : list call) (item : Item) :
  counted item -> counted (after cs item).
Proof.
  revert item. induction cs as [|c cs IH]; intros item Hc; [exact Hc|].
  rewrite after_cons. apply IH. destruct c.
  - rewrite after_Upgrade. apply Upgrade_counted, Hc.
  - rewrite after_Downgrade. apply Downgrade_counted, Hc.
  - rewrite after_CycleTemple. unfold execState, CycleTemple. cbn.
    destruct up; [|destruct (_ <? 0)]; exact Hc.
Qed.

(** Among the calls on an enabled item, [Downgrade] disables exactly
    those that would take the count below zero. *)
Lemma Downgrade_disables (item : Item) :
  counted item -> Enabled item = true ->
  (Enabled (execState Downgrade item) = false
   <-> count item - CountStep item0 < 0).
Proof.
  intros Hc Hen. pose proof (counted_sub item Hc) as Hsub.
  destruct Hc as (Hmax & Hstep & Hlo & Hhi).
  unfold execState. rewrite Downgrade_run, countDown_run. unfold IsCountable.
  rewrite Hen. cbn.
  destruct (Z.eqb_spec (CountMax item) 0) as [E|_]; [congruence|].
  cbn. rewrite Hsub, Hstep.
  destruct (Z.ltb_spec (count item - CountStep item0) 0); cbn.
  - tauto.
  - rewrite Hen. split; [discriminate | lia].
Qed.

Lemma counted_start : 0 <= count item0 <= CountMax item0 -> counted item0.
Proof. intros H. repeat split; apply H. Qed.

End Countable.

(** C3, as the code has it: for every countable item ([CountMax <> 0])
    whose count starts in [[0, CountMax]], whose [CountStep] is
    non-negative, and for which [CountMax + CountStep] does not exceed the
    largest [int], every sequence of calls keeps the count in
    [[0, CountMax]]: a further [Upgrade] does not take it above [CountMax],
    a further [Downgrade] does not leave it below 0, and a [Downgrade] of
    the enabled item disables it exactly when [count - CountStep] is
    negative ([Downgrade] of a disabled item changes nothing). *)
Theorem countable_count_bounded (item : Item) (cs : list call) :
  CountMax item <> 0 ->
  0 <= count item <= CountMax item ->
  0 <= CountStep item ->
  CountMax item + CountStep item <= max_int ->
  let item' := after cs item in
  0 <= count item' <= CountMax item /\
  count (execState Upgrade item') <= CountMax item /\
  0 <= count (execState Downgrade item') /\
  (Enabled item' = true ->
     (Enabled (execState Downgrade item') = false
      <-> count item' - CountStep item < 0)) /\
  (Enabled item' = false -> runState Downgrade item' = (false, item')).
Proof.
  intros Hmax Hstart Hstep Hfit item'.
  assert (Hc : CountMax item' = CountMax item /\
               CountStep item' = CountStep item /\
               0 <= count item' <= CountMax item).
  { apply after_counted; try assumption. apply counted_start, Hstart. }
  split; [apply Hc|].
  split; [apply (Upgrade_counted item Hmax Hstep Hfit item' Hc)|].
  split; [apply (Downgrade_counted item Hmax Hstep Hfit item' Hc)|].
  split; [apply (Downgrade_disables item Hmax Hstep Hfit item' Hc)|].
  intros Hoff. rewrite Downgrade_run, Hoff. reflexivity.
Qed.

Lemma countable_count_bounded_witness :
  let item' := after [CallUpgrade; CallUpgrade; CallDowngrade]
                     (with_Enabled true skullToken) in
  0 <= count item' <= 100 /\
  count (execState Upgrade item') <= 100 /\
  0 <= count (execState Downgrade item') /\
  (Enabled item' = true ->
     (Enabled (execState Downgrade item') = false <-> count item' - 1 < 0)) /\
  (Enabled item' = false -> runState Downgrade item' = (false, item')).
Proof.
  apply (countable_count_bounded (with_Enabled true skullToken)
           [CallUpgrade; CallUpgrade; CallDowngrade]).
  - discriminate.
  - cbn. lia.
  - cbn. lia.
  - cbn. rewrite max_int_val. lia.
Defined.

(** C3 as it is stated, without the bound on [CountMax + CountStep], fails:
    a counter with [CountMax = 1] and the largest [int] as its step starts
    at 0 and, enabled, is taken by two calls of [Upgrade] to the smallest
    [int]. *)
Lemma count_bound_overflow :
  CountMax greedyCounter <> 0 /\
  0 <= count greedyCounter <= CountMax greedyCounter /\
  0 <= CountStep greedyCounter /\
  count (after [CallUpgrade] greedyCounter) = 1 /\
  count (after [CallUpgrade; CallUpgrade] greedyCounter) = min_int /\
  ~ (0 <= count (after [CallUpgrade; CallUpgrade] greedyCounter)
          <= CountMax greedyCounter).
Proof.
  repeat split; try (vm_compute; congruence).
  intros [H _]. vm_compute in H. apply H. reflexivity.
Qed.

(** ** Stepped items *)

Section Stepped.

Variable item0 : Item.
Hypothesis not_countable : CountMax item0 = 0.
Hypothesis tiers_fit : tiers item0 <= max_int.

(** [item0] enabled or not, at tier [i]. *)
Let at_tier (b : bool) (i : Z) : Item :=
  with_Enabled b (with_upgradeIndex i item0).

Lemma Upgrade_climbs (i : Z) :
  0 <= i -> i + 1 < tiers item0 ->
  runState Upgrade (at_tier true i) = (true, at_tier true (i + 1)).
Proof.
  intros Hlo Hhi. rewrite Upgrade_run. unfold IsCountable. cbn.
  rewrite not_countable. cbn. change (tiers _) with (tiers item0).
  rewrite add_exact
    by (unfold in_range; rewrite min_int_val; lia).
  tests; cbn; try lia. rewrite rem_small by lia. reflexivity.
Qed.

Lemma Upgrade_at_top (i : Z) :
  0 <= i -> i + 1 = tiers item0 ->
  runState Upgrade (at_tier true i) = (false, at_tier true i).
Proof.
  intros Hlo Hhi. rewrite Upgrade_run. unfold IsCountable. cbn.
  rewrite not_countable. cbn. change (tiers _) with (tiers item0).
  rewrite add_exact
    by (unfold in_range; rewrite min_int_val; lia).
  tests; cbn; try lia; reflexivity.
Qed.

Lemma Downgrade_descends (i : Z) :
  0 <= i -> i + 1 < tiers item0 ->
  runState Downgrade (at_tier true (i + 1)) = (true, at_tier true i).
Proof.
  intros Hlo Hhi. rewrite Downgrade_run. unfold IsCountable. cbn.
  rewrite not_countable. cbn. change (tiers _) with (tiers item0).
  rewrite sub_exact
    by (unfold in_range; rewrite min_int_val; lia).
  tests; cbn; try lia. rewrite rem_small by lia.
  replace (i + 1 - 1) with i by lia. reflexivity.
Qed.

Lemma Downgrade_at_floor :
  runState Downgrade (at_tier true 0) = (true, at_tier false 0).
Proof.
  rewrite Downgrade_run. unfold IsCountable. cbn.
  rewrite not_countable. cbn. change (tiers _) with (tiers item0).
  rewrite sub_exact
    by (unfold in_range; rewrite min_int_val, max_int_val; lia).
  tests; cbn; try lia; reflexivity.
Qed.

(** From tier [i], [k] upgrades that stay below the top climb [k] tiers. *)
Lemma upgrades_climb (k : nat) (i : Z) :
  0 <= i -> i + Z.of_nat k < tiers item0 ->
  after (repeat CallUpgrade k) (at_tier true i)
  = at_tier true (i + Z.of_nat k).
Proof.
  revert i. induction k as [|k IH]; intros i Hlo Hhi.
  - cbn. rewrite Z.add_0_r. reflexivity.
  - cbn [repeat]. rewrite after_cons, after_Upgrade. unfold execState.
    rewrite Upgrade_climbs by lia. cbn [snd].
    rewrite IH by lia. f_equal. lia.
Qed.

(** From tier [k], [k] downgrades reach the lowest tier, still enabled. *)
Lemma downgrades_descend (k : nat) :
  Z.of_nat k < tiers item0 ->
  after (repeat CallDowngrade k) (at_tier true (Z.of_nat k))
  = at_tier true 0.
Proof.
  induction k as [|k IH]; intros Hhi.
  - reflexivity.
  - cbn [repeat]. rewrite after_cons, after_Downgrade. unfold execState.
    replace (Z.of_nat (S k)) with (Z.of_nat k + 1) by lia.
    rewrite Downgrade_descends by lia. cbn [snd]. apply IH. lia.
Qed.

End Stepped.

Lemma disabled_at_floor (item : Item) :
  Enabled item = false -> upgradeIndex item = 0 ->
  with_Enabled false (with_upgradeIndex 0 item) = item.
Proof. destruct item. cbn. intros -> ->. reflexivity. Qed.

Lemma repeat_snoc {A : Type} (a : A) (n : nat) :
  repeat a (S n) = repeat a n ++ [a].
Proof.
  induction n as [|n IH]; [reflexivity|].
  cbn [repeat app] in *. rewrite <- IH. reflexivity.
Qed.

(** C4, as the code has it: for every non-countable item with an empty
    [ItemProgression] and a [CapacityProgression] of length [N >= 1] that
    starts disabled with [upgradeIndex] 0, [N] calls of [Upgrade] (the first
    of them only enables the item) leave it enabled at the top tier,
    [upgradeIndex = N - 1]; one further [Upgrade] then returns false and
    changes nothing; and from the top tier [N] calls of [Downgrade] return
    the item to its disabled state. *)
Theorem stepped_ladder (item : Item) (N : nat) :
  CountMax item = 0 ->
  ItemProgression item = [] ->
  List.length (CapacityProgression item) = N ->
  (1 <= N)%nat ->
  Z.of_nat N <= max_int ->
  Enabled item = false ->
  upgradeIndex item = 0 ->
  let top := after (repeat CallUpgrade N) item in
  Enabled top = true /\
  upgradeIndex top = Z.of_nat N - 1 /\
  runState Upgrade top = (false, top) /\
  after (repeat CallDowngrade N) top = item.
Proof.
  intros Hcount Hprog Hlen HN Hfit Hoff Hidx top.
  assert (Htiers : tiers item = Z.of_nat N).
  { unfold tiers. rewrite Hprog. unfold len. rewrite Hlen. reflexivity. }
  assert (Hfit' : tiers item <= max_int) by (rewrite Htiers; exact Hfit).
  assert (Htop : top = with_Enabled true
                         (with_upgradeIndex (Z.of_nat N - 1) item)).
  { unfold top. destruct N as [|n]; [lia|].
    cbn [repeat]. rewrite after_cons, after_Upgrade. unfold execState.
    rewrite Upgrade_run, Hoff. cbn [negb snd].
    rewrite <- (disabled_at_floor item Hoff Hidx) at 1.
    change (with_Enabled true (with_Enabled false (with_upgradeIndex 0 item)))
      with (with_Enabled true (with_upgradeIndex 0 item)).
    rewrite (upgrades_climb item Hcount Hfit') by lia.
    f_equal. f_equal. lia. }
  rewrite Htop. cbn [Enabled upgradeIndex with_Enabled with_upgradeIndex].
  split; [reflexivity|]. split; [reflexivity|].
  split.
  - apply (Upgrade_at_top item Hcount Hfit'); lia.
  - destruct N as [|n]; [lia|].
    rewrite repeat_snoc, after_app.
    replace (Z.of_nat (S n) - 1) with (Z.of_nat n) by lia.
    rewrite (downgrades_descend item Hcount Hfit') by lia.
    rewrite after_Downgrade. unfold execState.
    pose proof (Downgrade_at_floor item Hcount) as Hfloor. cbv beta in Hfloor.
    rewrite Hfloor. cbn [snd].
    apply disabled_at_floor; assumption.
Qed.

Lemma stepped_ladder_witness :
  let top := after (repeat CallUpgrade 3) bombBag in
  Enabled top = true /\
  upgradeIndex top = 3 - 1 /\
  runState Upgrade top = (false, top) /\
  after (repeat CallDowngrade 3) top = bombBag.
Proof.
  apply (stepped_ladder bombBag 3); try reflexivity.
  - lia.
  - rewrite max_int_val. cbn. lia.
Defined.

(** C4 as it is stated, with [N - 1] upgrades, fails: the bomb bag has
    [N = 3] capacities, and two calls of [Upgrade] from disabled leave it at
    [upgradeIndex] 1, not 2, where one further [Upgrade] still returns
    true. *)
Lemma stepped_ladder_short :
  let reached := after (repeat CallUpgrade (3 - 1)) bombBag in
  List.length (CapacityProgression bombBag) = 3%nat /\
  Enabled bombBag = false /\ upgradeIndex bombBag = 0 /\
  upgradeIndex reached = 1 /\
  upgradeIndex reached <> 3 - 1 /\
  fst (runState Upgrade reached) = true.
Proof.
  vm_compute. repeat split; congruence.
Qed.

(** ** Temple labels *)

Lemma len_temples : len temples = 10.
Proof. reflexivity. Qed.

Lemma CycleTemple_run (up : bool) (item : Item) :
  runState (CycleTemple up) item =
  (tt, with_templeIndex
         (if up then rem (add (templeIndex item) 1) (len temples)
          else if sub (templeIndex item) 1 <? 0 then sub (len temples) 1
               else sub (templeIndex item) 1) item).
Proof.
  unfold CycleTemple. cbn. destruct up; [reflexivity|].
  destruct (_ <? 0); reflexivity.
Qed.

Lemma CycleTemple_step (up : bool) (item : Item) :
  0 <= templeIndex item < len temples ->
  runState (CycleTemple up) item =
  (tt, with_templeIndex
         ((templeIndex item + (if up then 1 else -1)) mod len temples) item).
Proof.
  rewrite len_temples. intros Hrange. rewrite CycleTemple_run, len_temples.
  assert (Hup : in_range (templeIndex item + 1))
    by (unfold in_range; rewrite min_int_val, max_int_val; lia).
  assert (Hdown : in_range (templeIndex item - 1))
    by (unfold in_range; rewrite min_int_val, max_int_val; lia).
  rewrite (add_exact _ _ Hup), (sub_exact _ _ Hdown).
  change (sub 10 1) with 9.
  do 2 f_equal. destruct up.
  - unfold rem. rewrite Z.rem_mod_nonneg by lia. reflexivity.
  - destruct (Z.ltb_spec (templeIndex item - 1) 0).
    + replace (templeIndex item) with 0 by lia. reflexivity.
    + rewrite Z.mod_small by lia. reflexivity.
Qed.

Lemma index_in_range {A : Type} (s : list A) (i : Z) :
  0 <= i < len s -> exists x, index s i = Some x.
Proof.
  intros Hi. unfold index.
  destruct (Z.leb_spec 0 i); [|lia]. destruct (Z.ltb_spec i (len s)); [|lia].
  cbn. destruct (nth_error s (Z.to_nat i)) as [x|] eqn:E; [eauto|].
  apply nth_error_None in E. unfold len in Hi. lia.
Qed.

Lemma call_templeIndex (c : call) (item : Item) :
  0 <= templeIndex item < len temples ->
  0 <= templeIndex (after [c] item) < len temples.
Proof.
  intros Hrange. destruct c.
  - rewrite after_Upgrade. unfold execState. rewrite Upgrade_run, countUp_run.
    destruct (negb _); [|destruct (IsCountable _); [|destruct (_ || _)]];
      exact Hrange.
  - rewrite after_Downgrade. unfold execState.
    rewrite Downgrade_run, countDown_run.
    destruct (negb _);
      [|destruct (IsCountable _); [destruct (_ <? 0)|destruct (_ || _)]];
      exact Hrange.
  - rewrite after_CycleTemple. unfold execState.
    rewrite (CycleTemple_step up item Hrange). cbn [snd].
    change (templeIndex (with_templeIndex ?i _)) with i.
    apply Z.mod_pos_bound. rewrite len_temples. lia.
Qed.

Lemma after_templeIndex (cs : list call) (item : Item) :
  0 <= templeIndex item < len temples ->
  0 <= templeIndex (after cs item) < len temples.
Proof.
  revert item. induction cs as [|c cs IH]; intros item Hrange; [exact Hrange|].
  rewrite after_cons. apply IH, call_templeIndex, Hrange.
Qed.

(** No item of a running program makes [TempleText] panic. *)
Lemma built_TempleText (item : Item) :
  built item -> exists label, TempleText item = Some label.
Proof.
  intros Hb. apply index_in_range.
  induction Hb as [item _ _ Htemple _ | c item _ IH].
  - rewrite Htemple, len_temples. lia.
  - apply call_templeIndex, IH.
Qed.

(** C7, as the code has it: the label table has 10 entries, and for every
    item whose [templeIndex] is an index of the table [CycleTemple]
    increments ([up = true]) or decrements ([up = false]) it modulo 10,
    wrapping from the last label to the first and from the first to the
    last; [CycleTemple] does not modify [Enabled], [count] or
    [upgradeIndex], and its effect does not depend on them. *)
Theorem CycleTemple_cycles (up : bool) (item : Item) :
  len temples = 10 /\
  (0 <= templeIndex item < 10 ->
     runState (CycleTemple up) item =
     (tt, with_templeIndex
            ((templeIndex item + (if up then 1 else -1)) mod 10) item)) /\
  (templeIndex item = 9 ->
     templeIndex (execState (CycleTemple true) item) = 0) /\
  (templeIndex item = 0 ->
     templeIndex (execState (CycleTemple false) item) = 9) /\
  (let item' := execState (CycleTemple up) item in
   Enabled item' = Enabled item /\ count item' = count item /\
   upgradeIndex item' = upgradeIndex item) /\
  (forall (b : bool) (c i : Z),
     execState (CycleTemple up)
       (with_Enabled b (with_count c (with_upgradeIndex i item)))
     = with_Enabled b (with_count c (with_upgradeIndex i
         (execState (CycleTemple up) item)))).
Proof.
  split; [exact len_temples|].
  split; [rewrite <- len_temples; apply CycleTemple_step|].
  split; [|split].
  - intros H9. unfold execState. rewrite CycleTemple_step
      by (rewrite H9, len_temples; lia).
    cbn [snd]. rewrite H9. reflexivity.
  - intros H0. unfold execState. rewrite CycleTemple_step
      by (rewrite H0, len_temples; lia).
    cbn [snd]. rewrite H0. reflexivity.
  - split.
    + unfold execState. rewrite CycleTemple_run. cbn. auto.
    + intros b c i. unfold execState. rewrite !CycleTemple_run. reflexivity.
Qed.

Lemma CycleTemple_cycles_witness :
  runState (CycleTemple true) (with_templeIndex 9 medallion)
  = (tt, with_templeIndex 0 medallion) /\
  runState (CycleTemple false) medallion
  = (tt, with_templeIndex 9 medallion).
Proof.
  split.
  - apply (proj1 (proj2 (CycleTemple_cycles true (with_templeIndex 9 medallion)))).
    cbn. lia.
  - apply (proj1 (proj2 (CycleTemple_cycles false medallion))).
    cbn. lia.
Defined.

(** C7 as it is stated, over a set of 9 labels, fails: the table has 10
    entries, so from index 8 a step up reaches index 9 (the label "Shdw")
    instead of wrapping to 0, and from index 0 a step down reaches 9,
    not 8. *)
Lemma CycleTemple_not_modulo_9 :
  len temples <> 9 /\
  templeIndex (execState (CycleTemple true) (with_templeIndex 8 medallion))
    <> (8 + 1) mod 9 /\
  TempleText (execState (CycleTemple true) (with_templeIndex 8 medallion))
    = Some "Shdw"%string /\
  templeIndex (execState (CycleTemple false) medallion) <> (0 - 1) mod 9.
Proof.
  vm_compute. repeat split; congruence.
Qed.

(** C10. For every item whose [templeIndex] lies in [[0, 10)], the length
    of the label table, as it does for every item whose [templeIndex] is
    still zero, [CycleTemple] in either direction keeps it there, and so
    does every sequence of calls; the index of [TempleText] into the table
    is then in bounds, and [TempleText] returns a label instead of
    panicking. *)
Theorem TempleText_in_bounds (item : Item) :
  len temples = 10 /\
  (templeIndex item = 0 -> 0 <= templeIndex item < 10) /\
  (0 <= templeIndex item < 10 ->
  (forall up : bool,
     let item' := execState (CycleTemple up) item in
     0 <= templeIndex item' < 10 /\
     exists label, TempleText item' = Some label) /\
  (forall cs : list call,
     let item' := after cs item in
     0 <= templeIndex item' < 10 /\
     exists label, TempleText item' = Some label)).
Proof.
  split; [exact len_temples|]. split; [lia|].
  rewrite <- len_temples. intros Hrange.
  assert (Hall : forall cs : list call,
             0 <= templeIndex (after cs item) < len temples /\
             exists label, TempleText (after cs item) = Some label).
  { intros cs. pose proof (after_templeIndex cs item Hrange) as H.
    split; [exact H | apply index_in_range, H]. }
  split.
  - intros up. cbv zeta. rewrite <- after_CycleTemple. apply Hall.
  - exact Hall.
Qed.

Lemma TempleText_in_bounds_witness :
  0 <= templeIndex (execState (CycleTemple false) medallion) < 10 /\
  exists label,
    TempleText (execState (CycleTemple false) medallion) = Some label.
Proof.
  apply (proj1 (proj2 (proj2 (TempleText_in_bounds medallion))
                      ltac:(cbn; lia)) false).
Defined.

(** ** Capacity *)

Lemma HasCapacity_nonempty (item : Item) :
  HasCapacity item = true <-> CapacityProgression item <> [].
Proof.
  unfold HasCapacity. rewrite Z.gtb_ltb, Z.ltb_lt.
  destruct (CapacityProgression item) as [|c s].
  - unfold len. cbn [List.length]. split; [lia | congruence].
  - rewrite len_cons. pose proof (len_nonneg s). split; [discriminate | lia].
Qed.

(** C8. [Capacity], in the order of its tests: it returns -1 for every item
    with no capacity, that is without a [CapacityProgression]; of the
    items that have one, it returns the raw [upgradeIndex] for every
    countable item ([CountMax <> 0]), not the count and not a value of the
    list; and for every other item it returns
    [CapacityProgression[upgradeIndex]], a capacity of the list whenever
    the index is within it. *)
Theorem Capacity_cases (item : Item) :
  (CapacityProgression item = [] -> Capacity item = Some (-1)) /\
  (CapacityProgression item <> [] -> CountMax item <> 0 ->
     Capacity item = Some (upgradeIndex item)) /\
  (CapacityProgression item <> [] -> CountMax item = 0 ->
     Capacity item = index (CapacityProgression item) (upgradeIndex item)) /\
  (0 <= upgradeIndex item < len (CapacityProgression item) ->
     exists c, index (CapacityProgression item) (upgradeIndex item) = Some c).
Proof.
  unfold Capacity, IsCountable.
  split; [|split; [|split]].
  - intros Hnil. destruct (HasCapacity item) eqn:E; [|reflexivity].
    apply HasCapacity_nonempty in E. contradiction.
  - intros Hcap Hmax. apply HasCapacity_nonempty in Hcap. rewrite Hcap. cbn.
    destruct (Z.eqb_spec (CountMax item) 0); [contradiction | reflexivity].
  - intros Hcap Hmax. apply HasCapacity_nonempty in Hcap.
    rewrite Hcap, Hmax. reflexivity.
  - apply index_in_range.
Qed.

Lemma Capacity_cases_witness :
  Capacity skullToken = Some (-1) /\
  Capacity (with_upgradeIndex 2 bombchu) = Some 2 /\
  Capacity (with_upgradeIndex 2 bombBag) = Some 40.
Proof.
  split; [|split].
  - apply (proj1 (Capacity_cases skullToken)). reflexivity.
  - apply (proj1 (proj2 (Capacity_cases (with_upgradeIndex 2 bombchu))));
      discriminate.
  - refine (eq_trans
              (proj1 (proj2 (proj2 (Capacity_cases (with_upgradeIndex 2 bombBag))))
                     _ _) _);
      [discriminate | reflexivity | reflexivity].
Defined.

(** A countable item without a [CapacityProgression], as the skulltula
    token, is an item with no capacity: the first test decides. *)
Example Capacity_of_plain_counter :
  CountMax skullToken <> 0 /\ Capacity skullToken = Some (-1).
Proof.
  vm_compute. split; congruence.
Qed.

(** ** Keypad addressing *)

Lemma range_not_undefined (e : error) (zoneKP itemKP : Z) :
  range_error e -> e <> undefined_error zoneKP itemKP.
Proof. intros [-> | ->]; discriminate. Qed.

Lemma range_not_misconfigured (e : error) (name : string) :
  range_error e -> e <> misconfigured_error name.
Proof. intros [-> | ->]; discriminate. Qed.

Lemma undefined_not_misconfigured (zoneKP itemKP : Z) (name : string) :
  undefined_error zoneKP itemKP <> misconfigured_error name.
Proof. discriminate. Qed.

Lemma GetZoneItem_run (tracker : Tracker) (zoneKP itemKP : Z) :
  runState (GetZoneItem zoneKP itemKP) tracker =
  (if (zoneKP <=? 0) || (zoneKP >? 9) then
     (""%string, Some (errors_New "invalid zoneKP, must be [1-9]"))
   else if (itemKP <=? 0) || (itemKP >? 9) then
     (""%string, Some (errors_New "invalid itemKP, must be [1-9]"))
   else if (cell (zoneItemMap tracker) (zoneKP - 1) (itemKP - 1) =? "")%string
        then (""%string, Some (undefined_error zoneKP itemKP))
        else (cell (zoneItemMap tracker) (zoneKP - 1) (itemKP - 1), None),
   tracker).
Proof.
  unfold GetZoneItem, undefined_error. cbn [bind get ret Monad_state
    MonadState_state runState].
  tests; cbn [orb runState]; try reflexivity.
  rewrite !sub_exact
    by (unfold in_range; rewrite min_int_val, max_int_val; lia).
  destruct (_ =? _)%string; reflexivity.
Qed.

(** [GetZoneItem] never writes the tracker. *)
Lemma GetZoneItem_reads (tracker : Tracker) (zoneKP itemKP : Z) :
  execState (GetZoneItem zoneKP itemKP) tracker = tracker.
Proof. unfold execState. rewrite GetZoneItem_run. reflexivity. Qed.

(** C5. [GetZoneItem] fails with a range error if either digit is outside
    [[1, 9]], fails with the undefined-mapping error if the cell
    [zoneItemMap[zoneKP-1][itemKP-1]] is the empty string, and otherwise
    returns the name the cell stores. With "Hookshot" in cell [4][4],
    [GetZoneItem(5, 5)] returns "Hookshot"; [GetZoneItem(0, 5)] and
    [GetZoneItem(10, 5)] fail with the range error, which is not the
    undefined-mapping error. The tracker is the same after every call. *)
Theorem GetZoneItem_cases (tracker : Tracker) (zoneKP itemKP : Z) :
  (~ (1 <= zoneKP <= 9 /\ 1 <= itemKP <= 9) ->
     exists e, range_error e /\
       runState (GetZoneItem zoneKP itemKP) tracker
       = ((""%string, Some e), tracker)) /\
  (1 <= zoneKP <= 9 -> 1 <= itemKP <= 9 ->
     cell (zoneItemMap tracker) (zoneKP - 1) (itemKP - 1) = ""%string ->
     runState (GetZoneItem zoneKP itemKP) tracker
     = ((""%string, Some (undefined_error zoneKP itemKP)), tracker)) /\
  (1 <= zoneKP <= 9 -> 1 <= itemKP <= 9 ->
     cell (zoneItemMap tracker) (zoneKP - 1) (itemKP - 1) <> ""%string ->
     runState (GetZoneItem zoneKP itemKP) tracker
     = ((cell (zoneItemMap tracker) (zoneKP - 1) (itemKP - 1), None),
        tracker)) /\
  (cell (zoneItemMap tracker) 4 4 = "Hookshot"%string ->
     runState (GetZoneItem 5 5) tracker
     = (("Hookshot"%string, None), tracker)) /\
  (exists e, range_error e /\
     runState (GetZoneItem 0 5) tracker = ((""%string, Some e), tracker)) /\
  (exists e, range_error e /\
     runState (GetZoneItem 10 5) tracker = ((""%string, Some e), tracker)) /\
  (forall e, range_error e -> e <> undefined_error zoneKP itemKP).
Proof.
  repeat apply conj.
  - intros Hout. rewrite GetZoneItem_run. unfold range_error.
    tests; cbn [orb]; eauto; lia.
  - intros Hz Hi Hcell. rewrite GetZoneItem_run, Hcell.
    tests; cbn [orb]; try lia. reflexivity.
  - intros Hz Hi Hcell. rewrite GetZoneItem_run.
    apply String.eqb_neq in Hcell. rewrite Hcell.
    tests; cbn [orb]; try lia. reflexivity.
  - intros Hcell. rewrite GetZoneItem_run. cbn. rewrite Hcell. reflexivity.
  - unfold range_error. rewrite GetZoneItem_run. cbn. eauto.
  - unfold range_error. rewrite GetZoneItem_run. cbn. eauto.
  - intros e He. apply range_not_undefined, He.
Qed.

Lemma GetZoneItem_cases_witness :
  runState (GetZoneItem 5 5) someTracker
  = (("Hookshot"%string, None), someTracker) /\
  runState (GetZoneItem 5 4) someTracker
  = (("Longshot"%string, None), someTracker) /\
  runState (GetZoneItem 1 1) someTracker
  = ((""%string, Some (undefined_error 1 1)), someTracker) /\
  exists e, range_error e /\
    runState (GetZoneItem 5 12) someTracker = ((""%string, Some e), someTracker).
Proof.
  repeat apply conj.
  - apply (proj1 (proj2 (proj2 (proj2 (GetZoneItem_cases someTracker 5 5))))).
    reflexivity.
  - apply (proj1 (proj2 (proj2 (GetZoneItem_cases someTracker 5 4))));
      [lia | lia | discriminate].
  - apply (proj1 (proj2 (GetZoneItem_cases someTracker 1 1)));
      [lia | lia | reflexivity].
  - apply (proj1 (GetZoneItem_cases someTracker 5 12)). lia.
Defined.

(** ** The catalog lookup by name *)

Lemma indexByNameFrom_absent (name : string) (s : list Item) (k : Z) :
  (forall item, In item s -> Name item <> name) ->
  indexByNameFrom name k s = -1.
Proof.
  revert k. induction s as [|item s IH]; intros k Habsent; [reflexivity|].
  cbn [indexByNameFrom].
  destruct (String.eqb_spec (Name item) name) as [E|_].
  - exfalso. apply (Habsent item); [left; reflexivity | exact E].
  - apply IH. intros item' Hin. apply Habsent. right. exact Hin.
Qed.

Lemma indexByNameFrom_first (name : string) (s : list Item) (k : Z) :
  (exists item, In item s /\ Name item = name) ->
  exists (n : nat) (item : Item),
    indexByNameFrom name k s = k + Z.of_nat n /\
    nth_error s n = Some item /\ Name item = name /\
    forall (m : nat) (item' : Item),
      (m < n)%nat -> nth_error s m = Some item' -> Name item' <> name.
Proof.
  revert k. induction s as [|item s IH]; intros k (found & Hin & Hname).
  - destruct Hin.
  - cbn [indexByNameFrom].
    destruct (String.eqb_spec (Name item) name) as [E|E].
    + exists 0%nat, item.
      split; [lia|]. split; [reflexivity|]. split; [exact E|].
      intros m item' Hm. inversion Hm.
    + destruct Hin as [-> | Hin]; [contradiction|].
      destruct (IH (k + 1) (ex_intro _ found (conj Hin Hname)))
        as (n & item' & Hidx & Hnth & Hn & Hbefore).
      exists (S n), item'.
      split; [rewrite Hidx; lia|]. split; [exact Hnth|]. split; [exact Hn|].
      intros [|m] item'' Hm Hnth'.
      * cbn in Hnth'. injection Hnth' as <-. exact E.
      * apply (Hbefore m); [lia | exact Hnth'].
Qed.

Lemma index_of_nat {A : Type} (s : list A) (n : nat) (x : A) :
  nth_error s n = Some x -> index s (Z.of_nat n) = Some x.
Proof.
  intros Hnth. unfold index.
  assert (n < List.length s)%nat by (apply nth_error_Some; congruence).
  destruct (Z.leb_spec 0 (Z.of_nat n)); [|lia].
  destruct (Z.ltb_spec (Z.of_nat n) (len s)); [|unfold len in *; lia].
  cbn. rewrite Nat2Z.id. exact Hnth.
Qed.

Lemma index_to_nat {A : Type} (s : list A) (i : Z) (x : A) :
  index s i = Some x -> 0 <= i /\ nth_error s (Z.to_nat i) = Some x.
Proof.
  unfold index. destruct (Z.leb_spec 0 i); [|discriminate].
  destruct (i <? len s); cbn; [auto | discriminate].
Qed.

Lemma GetZoneItemIndex_run (tracker : Tracker) (zoneKP itemKP : Z) :
  runState (GetZoneItemIndex zoneKP itemKP) tracker =
  (match runState (GetZoneItem zoneKP itemKP) tracker with
   | ((_, Some e), _) => (-1, Some e)
   | ((name, None), _) =>
       if indexByNameFrom name 0 (items tracker) <? 0
       then (-1, Some (misconfigured_error name))
       else (indexByNameFrom name 0 (items tracker), None)
   end, tracker).
Proof.
  unfold GetZoneItemIndex, getItemIndexByName, misconfigured_error.
  cbn [bind get ret Monad_state MonadState_state runState].
  rewrite GetZoneItem_run.
  destruct (if (zoneKP <=? 0) || (zoneKP >? 9) then _ else _)
    as [name [e|]]; cbn [runState]; [reflexivity|].
  destruct (_ <? 0); reflexivity.
Qed.

Lemma Reset_run (tracker : Tracker) (newItems : list Item)
      (newZoneItemMap : ZoneItemMap) :
  runState (Reset newItems newZoneItemMap) tracker =
  (tt, mkTracker newItems newZoneItemMap (locations tracker) (input tracker)
         [] [] (repeat ""%string 7) [] [] []).
Proof. reflexivity. Qed.

(** C6. [GetZoneItemIndex] composes [GetZoneItem] with the linear lookup by
    name. It hands on any error of [GetZoneItem], with index -1. When
    [GetZoneItem] succeeds it fails with the misconfiguration error, with
    index -1, if no item of the catalog has the resolved name, and
    otherwise returns the index of the first item of the catalog with that
    name. The misconfiguration error is returned exactly in that case and
    differs from the errors of [GetZoneItem]. [Reset] installs a zone-item
    map whose cell names an absent item as it is: the error comes with the
    lookup that follows. *)
Theorem GetZoneItemIndex_cases (tracker : Tracker) (zoneKP itemKP : Z) :
  (forall (s : string) (e : error),
     runState (GetZoneItem zoneKP itemKP) tracker = ((s, Some e), tracker) ->
     runState (GetZoneItemIndex zoneKP itemKP) tracker
     = ((-1, Some e), tracker)) /\
  (forall name : string,
     runState (GetZoneItem zoneKP itemKP) tracker = ((name, None), tracker) ->
     ((forall item, In item (items tracker) -> Name item <> name) ->
        runState (GetZoneItemIndex zoneKP itemKP) tracker
        = ((-1, Some (misconfigured_error name)), tracker)) /\
     ((exists item, In item (items tracker) /\ Name item = name) ->
        exists (k : Z) (item : Item),
          runState (GetZoneItemIndex zoneKP itemKP) tracker
          = ((k, None), tracker) /\
          index (items tracker) k = Some item /\ Name item = name /\
          forall (j : Z) (item' : Item),
            j < k -> index (items tracker) j = Some item' ->
            Name item' <> name)) /\
  ((exists name,
      snd (evalState (GetZoneItemIndex zoneKP itemKP) tracker)
      = Some (misconfigured_error name))
   <-> (exists name,
          evalState (GetZoneItem zoneKP itemKP) tracker = (name, None) /\
          forall item, In item (items tracker) -> Name item <> name)) /\
  (forall (e : error) (name : string),
     range_error e \/ e = undefined_error zoneKP itemKP ->
     e <> misconfigured_error name) /\
  (forall (old : Tracker) (newItems : list Item) (m : ZoneItemMap)
          (name : string),
     1 <= zoneKP <= 9 -> 1 <= itemKP <= 9 ->
     cell m (zoneKP - 1) (itemKP - 1) = name -> name <> ""%string ->
     (forall item, In item newItems -> Name item <> name) ->
     runState (Reset newItems m ;; GetZoneItemIndex zoneKP itemKP) old
     = ((-1, Some (misconfigured_error name)),
        execState (Reset newItems m) old)).
Proof.
  assert (Hdecide : forall name : string,
             (forall item, In item (items tracker) -> Name item <> name) \/
             (exists item, In item (items tracker) /\ Name item = name)).
  { intros name. induction (items tracker) as [|item s IH].
    - left. intros item [].
    - destruct (String.eqb_spec (Name item) name) as [E|E].
      + right. exists item. split; [left; reflexivity | exact E].
      + destruct IH as [IH | (found & Hin & Hname)].
        * left. intros item' [<- | Hin]; [exact E | apply IH, Hin].
        * right. exists found. split; [right; exact Hin | exact Hname]. }
  assert (Hfound : forall name : string,
             (exists item, In item (items tracker) /\ Name item = name) ->
             exists (k : Z) (item : Item),
               indexByNameFrom name 0 (items tracker) = k /\ 0 <= k /\
               index (items tracker) k = Some item /\ Name item = name /\
               forall (j : Z) (item' : Item),
                 j < k -> index (items tracker) j = Some item' ->
                 Name item' <> name).
  { intros name Hex.
    destruct (indexByNameFrom_first name (items tracker) 0 Hex)
      as (n & item & Hidx & Hnth & Hname & Hbefore).
    exists (Z.of_nat n), item. repeat split; auto with zarith.
    - apply index_of_nat, Hnth.
    - intros j item' Hj Hget. apply index_to_nat in Hget as [Hj0 Hget].
      apply (Hbefore (Z.to_nat j)); [lia | exact Hget]. }
  repeat apply conj.
  - intros s e Hget. rewrite GetZoneItemIndex_run, Hget. reflexivity.
  - intros name Hrun. split.
    + intros Habsent. rewrite GetZoneItemIndex_run, Hrun.
      rewrite (indexByNameFrom_absent _ _ _ Habsent). reflexivity.
    + intros Hex. destruct (Hfound name Hex)
        as (k & item & Hidx & Hk & Hget & Hname & Hbefore).
      exists k, item. rewrite GetZoneItemIndex_run, Hrun, Hidx.
      destruct (Z.ltb_spec k 0); [lia|]. auto.
  - unfold evalState. rewrite GetZoneItemIndex_run. cbn [fst snd].
    destruct (runState (GetZoneItem zoneKP itemKP) tracker)
      as [[name [e|]] tracker'] eqn:Hget.
    + rewrite GetZoneItem_run in Hget.
      intros (bad & Hbad). exfalso. cbn [snd] in Hbad.
      injection Hbad as Hbad. injection Hget as Hget _.
      revert Hget. tests; cbn [orb]; intros Hget.
      all: try (destruct (_ =? _)%string).
      all: inversion Hget; subst; discriminate.
    + intros (bad & Hbad). exists name. split; [reflexivity|].
      destruct (Hdecide name) as [Habsent | Hex]; [exact Habsent|].
      destruct (Hfound name Hex) as (k & item & Hidx & Hk & _).
      rewrite Hidx in Hbad. destruct (Z.ltb_spec k 0); [lia|].
      discriminate Hbad.
  - unfold evalState. rewrite GetZoneItemIndex_run. cbn [fst snd].
    intros (name & Hget & Habsent).
    destruct (runState (GetZoneItem zoneKP itemKP) tracker)
      as [[name' err] tracker'].
    cbn [fst] in Hget. injection Hget as -> ->.
    exists name. rewrite (indexByNameFrom_absent _ _ _ Habsent). reflexivity.
  - intros e name [He | ->].
    + apply range_not_misconfigured, He.
    + apply undefined_not_misconfigured.
  - intros old newItems m name Hz Hi Hcell Hname Habsent.
    cbn [bind Monad_state runState]. rewrite Reset_run.
    rewrite GetZoneItemIndex_run, GetZoneItem_run. cbn [zoneItemMap items].
    rewrite Hcell. apply String.eqb_neq in Hname. rewrite Hname.
    tests; cbn [orb]; try lia.
    rewrite (indexByNameFrom_absent _ _ _ Habsent). reflexivity.
Qed.

Lemma GetZoneItemIndex_cases_witness :
  runState (GetZoneItemIndex 0 5) someTracker
  = ((-1, Some (errors_New "invalid zoneKP, must be [1-9]")), someTracker) /\
  runState (GetZoneItemIndex 5 4) someTracker
  = ((-1, Some (misconfigured_error "Longshot")), someTracker) /\
  exists (k : Z) (item : Item),
    runState (GetZoneItemIndex 5 5) someTracker = ((k, None), someTracker) /\
    index (items someTracker) k = Some item /\
    Name item = "Hookshot"%string /\
    forall (j : Z) (item' : Item),
      j < k -> index (items someTracker) j = Some item' ->
      Name item' <> "Hookshot"%string.
Proof.
  repeat apply conj.
  - apply (proj1 (GetZoneItemIndex_cases someTracker 0 5) ""%string).
    reflexivity.
  - apply (proj1 (proj1 (proj2 (GetZoneItemIndex_cases someTracker 5 4))
                        "Longshot"%string eq_refl)).
    intros item [<- | [<- | [<- | []]]]; discriminate.
  - apply (proj2 (proj1 (proj2 (GetZoneItemIndex_cases someTracker 5 5))
                        "Hookshot"%string eq_refl)).
    exists hookshot. split; [right; left; reflexivity | reflexivity].
Defined.

(** ** Reset *)

(** C9. [Reset] replaces the catalog and the zone-item map of the tracker
    with its arguments and clears the history and the hints: whatever the
    tracker held before, the undo stack, the redo stack, [woths], [barrens]
    and [sometimes] are empty afterwards and each of the 7 slots of [always]
    is the empty string. *)
Theorem Reset_clears (tracker : Tracker) (newItems : list Item)
        (newZoneItemMap : ZoneItemMap) :
  let tracker' := execState (Reset newItems newZoneItemMap) tracker in
  items tracker' = newItems /\
  zoneItemMap tracker' = newZoneItemMap /\
  undoStack tracker' = [] /\
  redoStack tracker' = [] /\
  woths tracker' = [] /\
  barrens tracker' = [] /\
  sometimes tracker' = [] /\
  List.length (always tracker') = 7%nat /\
  Forall (fun slot => slot = ""%string) (always tracker').
Proof.
  cbv zeta. unfold execState. rewrite Reset_run.
  cbn [snd items zoneItemMap undoStack redoStack woths barrens sometimes
       always].
  repeat split. apply Forall_forall. intros slot Hin.
  apply repeat_spec in Hin. exact Hin.
Qed.

(** What [Reset] does not write stays as it was. *)
Lemma Reset_frame (tracker : Tracker) (newItems : list Item)
      (newZoneItemMap : ZoneItemMap) :
  let tracker' := execState (Reset newItems newZoneItemMap) tracker in
  locations tracker' = locations tracker /\ input tracker' = input tracker.
Proof. split; reflexivity. Qed.

Example Reset_someTracker :
  execState (Reset [hookshot] centreMap) someTracker
  = mkTracker [hookshot] centreMap ["Deku Tree"%string]
      (mkKbInput inputStateIdle ""%string 0)
      [] [] [""; ""; ""; ""; ""; ""; ""]%string [] [] [].
Proof. reflexivity. Qed.

(** * Further properties of the items *)

Lemma with_Enabled_same (item : Item) : with_Enabled (Enabled item) item = item.
Proof. destruct item. reflexivity. Qed.

Lemma with_count_same (item : Item) : with_count (count item) item = item.
Proof. destruct item. reflexivity. Qed.

Lemma with_upgradeIndex_same (item : Item) :
  with_upgradeIndex (upgradeIndex item) item = item.
Proof. destruct item. reflexivity. Qed.

Lemma with_templeIndex_same (item : Item) :
  with_templeIndex (templeIndex item) item = item.
Proof. destruct item. reflexivity. Qed.

(** X1. The result of [Upgrade] and of [Downgrade] is false only when the
    item is left exactly as it was; for an item that is not countable and
    whose index is among its tiers, the result is true only when the item
    has changed. *)
Theorem false_means_unaffected (item : Item) :
  (fst (runState Upgrade item) = false -> snd (runState Upgrade item) = item) /\
  (fst (runState Downgrade item) = false ->
     snd (runState Downgrade item) = item) /\
  (CountMax item = 0 -> index_ok item ->
     fst (runState Upgrade item) = true ->
     snd (runState Upgrade item) <> item) /\
  (CountMax item = 0 -> index_ok item ->
     fst (runState Downgrade item) = true ->
     snd (runState Downgrade item) <> item).
Proof.
  rewrite Upgrade_run, Downgrade_run. unfold IsCountable.
  repeat apply conj.
  - destruct (negb _); [discriminate|].
    destruct (negb (CountMax item =? 0)); [discriminate|].
    destruct (_ || _); [reflexivity | discriminate].
  - destruct (negb _); [reflexivity|].
    destruct (negb (CountMax item =? 0)); [discriminate|].
    destruct (_ || _); discriminate.
  - intros Hmax Hok. rewrite Hmax. cbn [Z.eqb negb].
    destruct (index_ok_bounds item Hok) as [Hup _].
    rewrite (add_exact _ _ Hup). destruct Hok as (Hlen & Hlo & Hhi).
    destruct (Enabled item) eqn:Hen; cbn [negb fst snd].
    + tests; cbn [orb fst snd]; try discriminate.
      intros _ Heq. apply (f_equal upgradeIndex) in Heq. cbn in Heq.
      rewrite rem_small in Heq by lia. lia.
    + intros _ Heq. apply (f_equal Enabled) in Heq. cbn in Heq. congruence.
  - intros Hmax Hok. rewrite Hmax. cbn [Z.eqb negb].
    destruct (index_ok_bounds item Hok) as [_ Hdown].
    rewrite (sub_exact _ _ Hdown). destruct Hok as (Hlen & Hlo & Hhi).
    destruct (Enabled item) eqn:Hen; cbn [negb fst snd]; [|discriminate].
    tests; cbn [orb fst snd]; intros _ Heq.
    1-3: apply (f_equal Enabled) in Heq; cbn in Heq; congruence.
    apply (f_equal upgradeIndex) in Heq. cbn in Heq.
    rewrite rem_small in Heq by lia. lia.
Qed.

Lemma false_means_unaffected_witness :
  snd (runState Upgrade (with_Enabled true (with_upgradeIndex 2 bombBag)))
  = with_Enabled true (with_upgradeIndex 2 bombBag) /\
  snd (runState Upgrade bombBag) <> bombBag.
Proof.
  split.
  - apply (proj1 (false_means_unaffected _)). reflexivity.
  - refine (proj1 (proj2 (proj2 (false_means_unaffected bombBag))) _
                  (bombBag_index_ok false 0 _) _);
      [reflexivity | lia | reflexivity].
Defined.

(** X2. On an item that is not countable, whose index is among its tiers
    and is 0 while the item is disabled, [Downgrade] undoes an [Upgrade]
    that returned true, and [Upgrade] undoes the [Downgrade] of an enabled
    item: the item is again exactly what it was. *)
Theorem stepped_round_trip (item : Item) :
  CountMax item = 0 -> index_ok item ->
  (Enabled item = false -> upgradeIndex item = 0) ->
  (fst (runState Upgrade item) = true ->
     runState Downgrade (snd (runState Upgrade item)) = (true, item)) /\
  (Enabled item = true ->
     runState Upgrade (snd (runState Downgrade item)) = (true, item)).
Proof.
  intros Hmax Hok Hfloor.
  destruct (index_ok_bounds item Hok) as [Hup Hdown].
  destruct Hok as (Hlen & Hlo & Hhi).
  assert (Hsame : forall i, i = upgradeIndex item -> with_upgradeIndex i item = item)
    by (intros i ->; apply with_upgradeIndex_same).
  split.
  - rewrite Upgrade_run. unfold IsCountable. rewrite Hmax. cbn [Z.eqb negb].
    rewrite (add_exact _ _ Hup).
    destruct (Enabled item) eqn:Hen; cbn [negb fst snd].
    + tests; cbn [orb fst snd]; try discriminate. intros _.
      rewrite rem_small by lia.
      rewrite Downgrade_run. unfold IsCountable. cbn. rewrite Hmax, Hen. cbn.
      change (tiers (with_upgradeIndex _ item)) with (tiers item).
      rewrite sub_exact
        by (unfold in_range; rewrite min_int_val, max_int_val in *; lia).
      tests; cbn [orb]; try lia.
      rewrite rem_small by lia.
      change (with_upgradeIndex ?i (with_upgradeIndex _ item))
        with (with_upgradeIndex i item).
      rewrite Hsame by lia. reflexivity.
    + intros _. rewrite Downgrade_run. unfold IsCountable. cbn.
      rewrite Hmax. cbn. change (tiers (with_Enabled _ item)) with (tiers item).
      rewrite (Hfloor eq_refl).
      change (sub 0 1 <? 0) with true. rewrite orb_true_r.
      change (with_Enabled false (with_Enabled true item))
        with (with_Enabled false item).
      rewrite <- Hen at 1. rewrite with_Enabled_same. reflexivity.
  - intros Hen.
    rewrite Downgrade_run. unfold IsCountable. rewrite Hmax, Hen.
    cbn [Z.eqb negb]. rewrite (sub_exact _ _ Hdown).
    assert (Hon : with_Enabled true item = item)
      by (rewrite <- Hen at 1; apply with_Enabled_same).
    tests; cbn [orb fst snd].
    1-3: rewrite Upgrade_run; cbn;
         change (with_Enabled true (with_Enabled false item))
           with (with_Enabled true item);
         rewrite Hon; reflexivity.
    rewrite rem_small by lia.
    rewrite Upgrade_run. unfold IsCountable. cbn. rewrite Hmax, Hen. cbn.
    change (tiers (with_upgradeIndex _ item)) with (tiers item).
    rewrite add_exact
      by (unfold in_range; rewrite min_int_val, max_int_val in *; lia).
    tests; cbn [orb]; try lia.
    rewrite rem_small by lia.
    change (with_upgradeIndex ?i (with_upgradeIndex _ item))
      with (with_upgradeIndex i item).
    rewrite Hsame by lia. reflexivity.
Qed.

Lemma stepped_round_trip_witness :
  runState Downgrade (snd (runState Upgrade bombBag)) = (true, bombBag) /\
  runState Upgrade
    (snd (runState Downgrade (with_Enabled true (with_upgradeIndex 2 bombBag))))
  = (true, with_Enabled true (with_upgradeIndex 2 bombBag)).
Proof.
  split.
  - refine (proj1 (stepped_round_trip bombBag _
                     (bombBag_index_ok false 0 _) _) _);
      [reflexivity | lia | reflexivity | reflexivity].
  - refine (proj2 (stepped_round_trip
                     (with_Enabled true (with_upgradeIndex 2 bombBag)) _
                     (bombBag_index_ok true 2 _) _) _);
      [reflexivity | lia | discriminate | reflexivity].
Defined.

(** Fields of a counter read after its count was written. *)
Ltac counted_fields item :=
  change (Enabled (with_count _ item)) with (Enabled item);
  change (IsCountable (with_count _ item)) with (IsCountable item);
  change (CountStep (with_count _ item)) with (CountStep item);
  change (CountMax (with_count _ item)) with (CountMax item);
  repeat match goal with
  | |- context [count (with_count ?c item)] =>
      change (count (with_count c item)) with c
  end.

(** X3. On an enabled countable item with a non-negative step and count,
    [Downgrade] undoes an [Upgrade] that was not clamped
    ([count + CountStep <= CountMax]), and [Upgrade] undoes a [Downgrade]
    that did not run out ([CountStep <= count <= CountMax]). *)
Theorem counter_round_trip (item : Item) :
  CountMax item <> 0 -> Enabled item = true ->
  0 <= CountStep item -> 0 <= count item -> CountMax item <= max_int ->
  (count item + CountStep item <= CountMax item ->
     runState Downgrade (snd (runState Upgrade item)) = (true, item)) /\
  (CountStep item <= count item <= CountMax item ->
     runState Upgrade (snd (runState Downgrade item)) = (true, item)).
Proof.
  intros Hmax Hen Hstep Hcount Hfit.
  assert (Hsame : forall c, c = count item -> with_count c item = item)
    by (intros c ->; apply with_count_same).
  assert (Hcountable : IsCountable item = true).
  { unfold IsCountable. destruct (Z.eqb_spec (CountMax item) 0); tauto. }
  split; intros Hroom.
  - rewrite Upgrade_run, countUp_run, Hen, Hcountable. cbn [negb snd].
    rewrite add_exact
      by (unfold in_range; rewrite min_int_val, max_int_val in *; lia).
    rewrite Z.min_l by lia.
    rewrite Downgrade_run, countDown_run. counted_fields item.
    rewrite Hen, Hcountable. cbn [negb snd].
    rewrite sub_exact
      by (unfold in_range; rewrite min_int_val, max_int_val in *; lia).
    destruct (Z.ltb_spec (count item + CountStep item - CountStep item) 0);
      [lia|].
    change (with_count ?c (with_count _ item)) with (with_count c item).
    rewrite Hsame by lia. reflexivity.
  - rewrite Downgrade_run, countDown_run, Hen, Hcountable. cbn [negb snd].
    rewrite sub_exact
      by (unfold in_range; rewrite min_int_val, max_int_val in *; lia).
    destruct (Z.ltb_spec (count item - CountStep item) 0); [lia|].
    rewrite Upgrade_run, countUp_run. counted_fields item.
    rewrite Hen, Hcountable. cbn [negb snd].
    rewrite add_exact
      by (unfold in_range; rewrite min_int_val, max_int_val in *; lia).
    rewrite Z.min_l by lia.
    change (with_count ?c (with_count _ item)) with (with_count c item).
    rewrite Hsame by lia. reflexivity.
Qed.

Lemma counter_round_trip_witness :
  runState Downgrade
    (snd (runState Upgrade (with_count 7 (with_Enabled true skullToken))))
  = (true, with_count 7 (with_Enabled true skullToken)) /\
  runState Upgrade
    (snd (runState Downgrade (with_count 7 (with_Enabled true skullToken))))
  = (true, with_count 7 (with_Enabled true skullToken)).
Proof.
  assert (H100 : 100 <= max_int) by (rewrite max_int_val; lia).
  split.
  - refine (proj1 (counter_round_trip
                     (with_count 7 (with_Enabled true skullToken))
                     _ _ _ _ H100) _);
      cbn; (discriminate || reflexivity || lia).
  - refine (proj2 (counter_round_trip
                     (with_count 7 (with_Enabled true skullToken))
                     _ _ _ _ H100) _);
      cbn; (discriminate || reflexivity || lia).
Defined.

(** X4. An enabled countable item at its maximum ([count = CountMax > 0]),
    with a non-negative [CountStep] and [CountMax + CountStep] no larger
    than the largest [int], is left exactly as it is by [Upgrade], which
    still returns true; a [Downgrade] after that [Upgrade] does not give
    the item back when the step is positive. *)
Theorem counter_at_max (item : Item) :
  0 < CountMax item -> Enabled item = true -> count item = CountMax item ->
  0 <= CountStep item -> CountMax item + CountStep item <= max_int ->
  runState Upgrade item = (true, item) /\
  (0 < CountStep item ->
     snd (runState Downgrade (snd (runState Upgrade item))) <> item).
Proof.
  intros Hmax Hen Hcount Hstep Hfit.
  assert (Hcountable : IsCountable item = true).
  { unfold IsCountable. destruct (Z.eqb_spec (CountMax item) 0); [lia | tauto]. }
  assert (Hup : runState Upgrade item = (true, item)).
  { rewrite Upgrade_run, countUp_run, Hen, Hcountable. cbn [negb snd].
    rewrite add_exact
      by (unfold in_range; rewrite min_int_val, max_int_val in *; lia).
    rewrite Z.min_r by lia. rewrite <- Hcount, with_count_same. reflexivity. }
  split; [exact Hup|].
  intros Hpos. rewrite Hup. cbn [snd].
  rewrite Downgrade_run, countDown_run, Hen, Hcountable. cbn [negb snd].
  rewrite sub_exact
    by (unfold in_range; rewrite min_int_val, max_int_val in *; lia).
  intros Heq. apply (f_equal count) in Heq. revert Heq.
  destruct (Z.ltb_spec (count item - CountStep item) 0); cbn; lia.
Qed.

Lemma counter_at_max_witness :
  runState Upgrade (with_count 100 (with_Enabled true skullToken))
  = (true, with_count 100 (with_Enabled true skullToken)) /\
  snd (runState Downgrade
         (snd (runState Upgrade (with_count 100 (with_Enabled true skullToken)))))
  <> with_count 100 (with_Enabled true skullToken).
Proof.
  assert (H101 : 100 + 1 <= max_int) by (rewrite max_int_val; lia).
  split.
  - refine (proj1 (counter_at_max (with_count 100 (with_Enabled true skullToken))
                     _ _ _ _ H101));
      cbn; (reflexivity || lia).
  - refine (proj2 (counter_at_max (with_count 100 (with_Enabled true skullToken))
                     _ _ _ _ H101) _);
      cbn; (reflexivity || lia).
Defined.

(** The tiers of a concrete item fit an [int]. *)
Ltac tiers_fit := unfold tiers, len; cbn; rewrite max_int_val; lia.

Lemma call_fields_ok (c : call) (item : Item) :
  fields_ok item -> fields_ok (after [c] item).
Proof.
  intros (Hok & Hoff & Hcounter & Hstepped).
  split; [apply call_index_ok, Hok|].
  destruct (index_ok_bounds item Hok) as [Hup Hdown].
  destruct Hok as (Hlen & Hlo & Hhi).
  destruct c.
  - rewrite after_Upgrade. unfold execState.
    rewrite Upgrade_run, countUp_run. unfold IsCountable.
    destruct (Enabled item) eqn:Hen; cbn [negb snd].
    + destruct (Z.eqb_spec (CountMax item) 0) as [Hmax | Hmax]; cbn [negb].
      * destruct (_ || _); cbn; repeat split; intros; auto; congruence.
      * cbn. repeat split; intros; auto; congruence.
    + cbn. repeat split; intros; auto; try congruence; try (apply Hoff; reflexivity).
  - rewrite after_Downgrade. unfold execState.
    rewrite Downgrade_run, countDown_run. unfold IsCountable.
    destruct (Enabled item) eqn:Hen; cbn [negb snd];
      [|exact (conj (fun _ => Hoff eq_refl) (conj Hcounter Hstepped))].
    destruct (Z.eqb_spec (CountMax item) 0) as [Hmax | Hmax]; cbn [negb].
    + rewrite (sub_exact _ _ Hdown).
      destruct (Z.eqb_spec (tiers item) 0) as [Hnone | Hsome]; cbn [orb].
      * cbn. repeat split; intros; auto; try congruence; lia.
      * destruct (Z.ltb_spec (upgradeIndex item - 1) 0); cbn;
          repeat split; intros; auto; try congruence; lia.
    + destruct (_ <? 0); cbn; repeat split; intros; auto; congruence.
  - rewrite after_CycleTemple. unfold execState. rewrite CycleTemple_run.
    cbn. repeat split; intros; auto; apply Hoff; assumption.
Qed.

Lemma built_fields (item : Item) : built item -> fields_ok item.
Proof.
  induction 1 as [item Hlen Hidx _ Hcount | c item _ IH].
  - split; [apply decoded_index_ok; assumption|]. auto.
  - apply call_fields_ok, IH.
Qed.

(** X5. Of every item of a running program: its index is among its tiers;
    while it is disabled its index and its count are 0; the index of a
    countable item is always 0; and the count of an item that is not
    countable is always 0. *)
Theorem built_fields_ok (item : Item) :
  built item ->
  index_ok item /\
  (Enabled item = false -> upgradeIndex item = 0 /\ count item = 0) /\
  (CountMax item <> 0 -> upgradeIndex item = 0) /\
  (CountMax item = 0 -> count item = 0).
Proof. intros Hbuilt. apply (built_fields item Hbuilt). Qed.

Lemma built_fields_ok_witness :
  index_ok (after [CallDowngrade] (with_Enabled true skullToken)) /\
  (Enabled (after [CallDowngrade] (with_Enabled true skullToken)) = false ->
   upgradeIndex (after [CallDowngrade] (with_Enabled true skullToken)) = 0 /\
   count (after [CallDowngrade] (with_Enabled true skullToken)) = 0) /\
  (CountMax (after [CallDowngrade] (with_Enabled true skullToken)) <> 0 ->
   upgradeIndex (after [CallDowngrade] (with_Enabled true skullToken)) = 0) /\
  (CountMax (after [CallDowngrade] (with_Enabled true skullToken)) = 0 ->
   count (after [CallDowngrade] (with_Enabled true skullToken)) = 0).
Proof.
  apply built_fields_ok. apply built_call. apply built_decoded.
  - tiers_fit.
  - reflexivity.
  - reflexivity.
  - reflexivity.
Defined.

(** X6. For every item of a running program that is countable and has a
    [CapacityProgression], [Capacity] is 0, whatever its count. *)
Theorem built_counter_capacity (item : Item) :
  built item -> CountMax item <> 0 -> CapacityProgression item <> [] ->
  Capacity item = Some 0.
Proof.
  intros Hbuilt Hmax Hcap.
  destruct (built_fields item Hbuilt) as (_ & _ & Hzero & _).
  unfold Capacity, IsCountable.
  apply HasCapacity_nonempty in Hcap. rewrite Hcap. cbn [negb].
  destruct (Z.eqb_spec (CountMax item) 0); [contradiction|].
  cbn. rewrite (Hzero Hmax). reflexivity.
Qed.

Lemma built_counter_capacity_witness :
  Capacity (after [CallUpgrade; CallUpgrade; CallUpgrade] bombchu) = Some 0 /\
  count (after [CallUpgrade; CallUpgrade; CallUpgrade] bombchu) = 15.
Proof.
  split; [|reflexivity].
  apply built_counter_capacity.
  - change (after [CallUpgrade; CallUpgrade; CallUpgrade] bombchu)
      with (after [CallUpgrade]
              (after [CallUpgrade] (after [CallUpgrade] bombchu))).
    do 3 apply built_call. apply built_decoded.
    + tiers_fit.
    + reflexivity.
    + reflexivity.
    + reflexivity.
  - discriminate.
  - discriminate.
Defined.

(** X7. For an item whose [templeIndex] is an index of the label table, a
    step of [CycleTemple] in one direction and a step back leave the item
    exactly as it was, and so do ten steps in the same direction. *)
Theorem CycleTemple_round_trip (up : bool) (item : Item) :
  0 <= templeIndex item < 10 ->
  execState (CycleTemple (negb up)) (execState (CycleTemple up) item) = item /\
  after (repeat (CallCycleTemple up) 10) item = item.
Proof.
  intros Hrange.
  assert (Hsame : forall i, i = templeIndex item -> with_templeIndex i item = item)
    by (intros i ->; apply with_templeIndex_same).
  assert (Hstep : forall i, 0 <= i < 10 ->
            execState (CycleTemple up) (with_templeIndex i item)
            = with_templeIndex ((i + (if up then 1 else -1)) mod 10) item).
  { intros i Hi. unfold execState.
    rewrite CycleTemple_step by (rewrite len_temples; exact Hi).
    rewrite len_temples. reflexivity. }
  assert (Hiter : forall (k : nat) (i : Z), 0 <= i < 10 ->
            after (repeat (CallCycleTemple up) k) (with_templeIndex i item)
            = with_templeIndex
                ((i + Z.of_nat k * (if up then 1 else -1)) mod 10) item).
  { induction k as [|k IH]; intros i Hi.
    - cbn [repeat]. rewrite Z.mul_0_l, Z.add_0_r, Z.mod_small by lia.
      reflexivity.
    - cbn [repeat]. rewrite after_cons, after_CycleTemple, Hstep by exact Hi.
      rewrite IH by (apply Z.mod_pos_bound; lia).
      f_equal. rewrite Zplus_mod_idemp_l. f_equal. lia. }
  split.
  - unfold execState at 2.
    rewrite CycleTemple_step by (rewrite len_temples; exact Hrange).
    cbn [snd]. unfold execState.
    rewrite CycleTemple_step
      by (cbn [templeIndex with_templeIndex]; apply Z.mod_pos_bound;
          rewrite len_temples; lia).
    cbn [snd templeIndex with_templeIndex]. rewrite len_temples.
    change (with_templeIndex ?i (with_templeIndex _ item))
      with (with_templeIndex i item).
    apply Hsame. rewrite Zplus_mod_idemp_l.
    destruct up; cbn [negb]; rewrite <- Z.add_assoc, Z.add_0_r;
      apply Z.mod_small; lia.
  - rewrite <- (with_templeIndex_same item) at 1.
    rewrite Hiter by exact Hrange. apply Hsame.
    destruct up.
    + replace (templeIndex item + Z.of_nat 10 * 1)
        with (templeIndex item + 1 * 10) by lia.
      rewrite Z_mod_plus_full. apply Z.mod_small. lia.
    + replace (templeIndex item + Z.of_nat 10 * -1)
        with (templeIndex item + (-1) * 10) by lia.
      rewrite Z_mod_plus_full. apply Z.mod_small. lia.
Qed.

Lemma CycleTemple_round_trip_witness :
  execState (CycleTemple false) (execState (CycleTemple true) medallion)
  = medallion /\
  after (repeat (CallCycleTemple true) 10) medallion = medallion.
Proof.
  apply (CycleTemple_round_trip true medallion). cbn. lia.
Defined.

(** ** Sprites and capacities of the items of a running program *)

Lemma index_last {A : Type} (s : list A) (d : A) :
  s <> [] -> len s <= max_int ->
  index s (sub (len s) 1) = Some (last s d).
Proof.
  intros Hne Hfit. pose proof (len_nonneg s) as Hlen.
  assert (Hpos : 0 < len s).
  { destruct s; [contradiction|]. rewrite len_cons.
    pose proof (len_nonneg s). lia. }
  rewrite sub_exact
    by (unfold in_range; rewrite min_int_val, max_int_val in *; lia).
  unfold index. destruct (Z.leb_spec 0 (len s - 1)); [|lia].
  destruct (Z.ltb_spec (len s - 1) (len s)); [|lia]. cbn [andb].
  unfold len. replace (Z.to_nat (Z.of_nat (List.length s) - 1))
    with (List.length s - 1)%nat by lia.
  clear - Hne. induction s as [|a s IH]; [contradiction|].
  destruct s as [|b s]; [reflexivity|].
  cbn [List.length Nat.sub last nth_error] in *.
  rewrite Nat.sub_0_r in IH. apply IH. discriminate.
Qed.

(** X8. [SheetRect] takes the origin of the sprite from the item itself
    when it has no [ItemProgression], from the last variant when the item
    is disabled, and from the variant at [upgradeIndex] when it is enabled;
    it does not panic on an item whose index is among its tiers. *)
Theorem SheetRect_cases (item : Item) :
  (ItemProgression item = [] ->
     SheetRect item = Some (spriteAt (SheetX item) (SheetY item))) /\
  (forall variant : Item,
     Enabled item = true ->
     index (ItemProgression item) (upgradeIndex item) = Some variant ->
     SheetRect item = Some (spriteAt (SheetX variant) (SheetY variant))) /\
  (ItemProgression item <> [] -> Enabled item = false ->
     len (ItemProgression item) <= max_int ->
     SheetRect item
     = Some (spriteAt (SheetX (last (ItemProgression item) item))
                      (SheetY (last (ItemProgression item) item)))) /\
  (index_ok item -> exists r, SheetRect item = Some r).
Proof.
  assert (Hnonempty : ItemProgression item <> [] ->
                      (len (ItemProgression item) >? 0) = true).
  { intros Hne. rewrite Z.gtb_ltb. apply Z.ltb_lt.
    destruct (ItemProgression item) as [|v s]; [contradiction|].
    rewrite len_cons. pose proof (len_nonneg s). lia. }
  repeat apply conj.
  - intros Hnil. unfold SheetRect. rewrite Hnil. reflexivity.
  - intros variant Hen Hget. unfold SheetRect.
    assert (Hne : ItemProgression item <> [])
      by (intros Hnil; rewrite Hnil in Hget; unfold index in Hget;
          destruct (_ && _); [destruct (Z.to_nat _)|]; discriminate).
    rewrite (Hnonempty Hne), Hen, Hget. reflexivity.
  - intros Hne Hoff Hfit. unfold SheetRect.
    rewrite (Hnonempty Hne), Hoff, (index_last _ item Hne Hfit). reflexivity.
  - intros (Hlen & Hlo & Hhi). unfold SheetRect.
    assert (Hcases : ItemProgression item = [] \/ ItemProgression item <> [])
      by (destruct (ItemProgression item); [left | right]; congruence).
    destruct Hcases as [Hnil | Hne]; [rewrite Hnil; unfold len; cbn; eauto|].
    assert (Htiers : tiers item = len (ItemProgression item))
      by (unfold tiers; destruct (ItemProgression item);
          [exfalso; apply Hne; reflexivity | reflexivity]).
    rewrite (Hnonempty Hne).
    destruct (Enabled item).
    + destruct (index_in_range (ItemProgression item) (upgradeIndex item))
        as [variant ->]; [|eauto].
      pose proof (Hnonempty Hne) as Hpos. apply Z.gtb_lt in Hpos. lia.
    + rewrite (index_last _ item Hne) by lia. eauto.
Qed.

Lemma SheetRect_cases_witness :
  SheetRect bombBag = Some (spriteAt 0 0) /\
  SheetRect (with_upgradeIndex 1 wallet) = Some (spriteAt 170 0) /\
  SheetRect (with_Enabled false wallet) = Some (spriteAt 204 0) /\
  exists r, SheetRect (with_upgradeIndex 2 wallet) = Some r.
Proof.
  repeat apply conj.
  - apply (proj1 (SheetRect_cases bombBag)). reflexivity.
  - refine (proj1 (proj2 (SheetRect_cases (with_upgradeIndex 1 wallet)))
                  (mkItem "Giant Wallet" 0 0 170 0 [] [] 0 0 0 0 0
                          false false false) _ _); reflexivity.
  - refine (proj1 (proj2 (proj2 (SheetRect_cases (with_Enabled false wallet))))
                  _ _ _); [discriminate | reflexivity | tiers_fit].
  - apply (proj2 (proj2 (proj2 (SheetRect_cases (with_upgradeIndex 2 wallet))))).
    unfold index_ok, tiers, len. cbn. rewrite max_int_val. lia.
Defined.

(** X9. [Capacity] does not panic on an item whose index is among its
    tiers when its [ItemProgression] is empty or as long as its
    [CapacityProgression]. *)
Theorem Capacity_total (item : Item) :
  index_ok item ->
  ItemProgression item = [] \/
  len (ItemProgression item) = len (CapacityProgression item) ->
  exists c, Capacity item = Some c.
Proof.
  intros (Hlen & Hlo & Hhi) Hsame. unfold Capacity.
  destruct (HasCapacity item) eqn:Hcap; cbn [negb]; [|eauto].
  destruct (IsCountable item); [eauto|].
  apply index_in_range.
  assert (Hpos : 0 < len (CapacityProgression item))
    by (unfold HasCapacity in Hcap; apply Z.gtb_lt in Hcap; exact Hcap).
  assert (Htiers : tiers item = len (CapacityProgression item)).
  { unfold tiers. destruct Hsame as [-> | Hsame]; [reflexivity|].
    destruct (ItemProgression item); [reflexivity | exact Hsame]. }
  lia.
Qed.

Lemma Capacity_total_witness :
  exists c, Capacity (with_upgradeIndex 2 bombBag) = Some c.
Proof.
  apply Capacity_total.
  - apply (bombBag_index_ok false 2). lia.
  - left. reflexivity.
Defined.

(** X10. [Capacity] panics in a running program when the configuration
    gives an item more sprite variants than capacities: an enabled item
    that is not countable, decoded with [n >= 1] capacities and more than
    [n] variants, is taken by [n] calls of [Upgrade] to a tier whose
    capacity does not exist. *)
Theorem Capacity_panics (item : Item) :
  CountMax item = 0 -> Enabled item = true -> upgradeIndex item = 0 ->
  CapacityProgression item <> [] ->
  len (CapacityProgression item) < len (ItemProgression item) <= max_int ->
  let reached :=
    after (repeat CallUpgrade (List.length (CapacityProgression item))) item in
  upgradeIndex reached = len (CapacityProgression item) /\
  Capacity reached = None.
Proof.
  intros Hmax Hen Hidx Hcap Hlens reached.
  assert (Htiers : tiers item = len (ItemProgression item)).
  { unfold tiers. destruct (ItemProgression item) as [|v s] eqn:Hprog;
      [|reflexivity].
    pose proof (len_nonneg (CapacityProgression item)).
    rewrite len_nil in Hlens. lia. }
  assert (Hstart : with_Enabled true (with_upgradeIndex 0 item) = item).
  { destruct item. cbn in Hen, Hidx. subst. reflexivity. }
  assert (Hreached : reached
            = with_Enabled true
                (with_upgradeIndex (len (CapacityProgression item)) item)).
  { unfold reached.
    pose proof (upgrades_climb item Hmax ltac:(lia)
                  (List.length (CapacityProgression item)) 0) as Hclimb.
    cbv beta in Hclimb. rewrite Hstart in Hclimb.
    rewrite Hclimb by (unfold len in *; lia).
    reflexivity. }
  rewrite Hreached. split; [reflexivity|].
  unfold Capacity.
  change (HasCapacity (with_Enabled true (with_upgradeIndex _ item)))
    with (HasCapacity item).
  change (IsCountable (with_Enabled true (with_upgradeIndex _ item)))
    with (IsCountable item).
  change (CapacityProgression (with_Enabled true (with_upgradeIndex _ item)))
    with (CapacityProgression item).
  change (upgradeIndex (with_Enabled true (with_upgradeIndex ?i item))) with i.
  rewrite (proj2 (HasCapacity_nonempty item) Hcap).
  unfold IsCountable. rewrite Hmax. cbn [Z.eqb negb].
  unfold index. rewrite Z.ltb_irrefl, andb_false_r. reflexivity.
Qed.

Lemma Capacity_panics_witness :
  upgradeIndex (after (repeat CallUpgrade 2) wallet) = 2 /\
  Capacity (after (repeat CallUpgrade 2) wallet) = None.
Proof.
  refine (Capacity_panics wallet _ _ _ _ _);
    try reflexivity; try discriminate.
  change (len (CapacityProgression wallet)) with 2.
  change (len (ItemProgression wallet)) with 3.
  rewrite max_int_val. lia.
Defined.

(** * Properties of the pointer handling *)

(** ** Where an item is on the background *)

Lemma margins : marginLeft = 4 /\ marginTop = 4.
Proof. split; reflexivity. Qed.

Lemma Rect_corners (item : Item) :
  min_int <= X item <= max_int - 38 -> min_int <= Y item <= max_int - 38 ->
  Rect item =
  image.mkRectangle (image.mkPoint (X item + 4) (Y item + 4))
                    (image.mkPoint (X item + 38) (Y item + 38)).
Proof.
  intros HX HY. unfold Rect.
  change marginLeft with 4. change marginTop with 4.
  change itemSpriteHeight with 34. change itemSpriteWidth with 34.
  rewrite !add_exact
    by (unfold in_range; rewrite min_int_val, max_int_val in *;
        rewrite ?add_exact
          by (unfold in_range; rewrite min_int_val, max_int_val in *; lia);
        lia).
  unfold image.Rect. rewrite !Z.gtb_ltb.
  destruct (Z.ltb_spec (4 + X item + 34) (4 + X item)); [lia|].
  destruct (Z.ltb_spec (4 + Y item + 34) (4 + Y item)); [lia|].
  f_equal; f_equal; lia.
Qed.

(** X11. For an item whose coordinates leave room for the sprite below the
    largest [int], a point is in [Rect] exactly when it is in the square of
    34 by 34 pixels that starts 4 pixels right of and below [(X, Y)]. *)
Theorem Rect_hit (item : Item) (x y : Z) :
  min_int <= X item <= max_int - 38 -> min_int <= Y item <= max_int - 38 ->
  (image.In (image.mkPoint x y) (Rect item) = true
   <-> X item + 4 <= x < X item + 38 /\ Y item + 4 <= y < Y item + 38).
Proof.
  intros HX HY. rewrite (Rect_corners item HX HY). unfold image.In. cbn.
  rewrite !andb_true_iff, !Z.leb_le, !Z.ltb_lt. tauto.
Qed.

Lemma Rect_hit_witness :
  image.In (image.mkPoint 100 20) (Rect bombBag) = true
  <-> X bombBag + 4 <= 100 < X bombBag + 38 /\
      Y bombBag + 4 <= 20 < Y bombBag + 38.
Proof.
  apply (Rect_hit bombBag 100 20);
    rewrite min_int_val, max_int_val; cbn; lia.
Defined.

(** X12. Two items whose coordinates leave room for the sprite below the
    largest [int] ([X] and [Y] at most [max_int - 38]) and whose origins
    are at least 34 pixels apart on one axis, as they are on different
    cells of the grid of 42 pixels, have no point in common in their
    [Rect]. *)
Theorem Rect_disjoint (a b : Item) (p : image.Point) :
  min_int <= X a <= max_int - 38 -> min_int <= Y a <= max_int - 38 ->
  min_int <= X b <= max_int - 38 -> min_int <= Y b <= max_int - 38 ->
  X a + 34 <= X b \/ X b + 34 <= X a \/ Y a + 34 <= Y b \/ Y b + 34 <= Y a ->
  image.In p (Rect a) = true -> image.In p (Rect b) = false.
Proof.
  intros HXa HYa HXb HYb Hapart Hin. destruct p as [x y].
  apply (Rect_hit a x y HXa HYa) in Hin.
  destruct (image.In (image.mkPoint x y) (Rect b)) eqn:Hb; [|reflexivity].
  apply (Rect_hit b x y HXb HYb) in Hb. lia.
Qed.

Lemma Rect_disjoint_witness :
  image.In (image.mkPoint 100 20) (Rect hookshot) = false.
Proof.
  apply (Rect_disjoint bombBag hookshot (image.mkPoint 100 20));
    try (rewrite min_int_val, max_int_val; cbn; lia).
  - cbn. lia.
  - reflexivity.
Defined.

(** ** The item under a point *)

Lemma indexByPosFrom_none (p : image.Point) (s : list Item) (k : Z) :
  (forall item, In item s -> image.In p (Rect item) = false) ->
  indexByPosFrom p k s = -1.
Proof.
  revert k. induction s as [|item s IH]; intros k Hnone; [reflexivity|].
  cbn [indexByPosFrom]. rewrite (Hnone item) by (left; reflexivity).
  apply IH. intros item' Hin. apply Hnone. right. exact Hin.
Qed.

Lemma indexByPosFrom_first (p : image.Point) (s : list Item) (k : Z) :
  (exists item, In item s /\ image.In p (Rect item) = true) ->
  exists (n : nat) (item : Item),
    indexByPosFrom p k s = k + Z.of_nat n /\
    nth_error s n = Some item /\ image.In p (Rect item) = true /\
    forall (m : nat) (item' : Item),
      (m < n)%nat -> nth_error s m = Some item' ->
      image.In p (Rect item') = false.
Proof.
  revert k. induction s as [|item s IH]; intros k (found & Hin & Hhit).
  - destruct Hin.
  - cbn [indexByPosFrom].
    destruct (image.In p (Rect item)) eqn:E.
    + exists 0%nat, item.
      split; [lia|]. split; [reflexivity|]. split; [exact E|].
      intros m item' Hm. inversion Hm.
    + destruct Hin as [-> | Hin]; [congruence|].
      destruct (IH (k + 1) (ex_intro _ found (conj Hin Hhit)))
        as (n & item' & Hidx & Hnth & Hn & Hbefore).
      exists (S n), item'.
      split; [rewrite Hidx; lia|]. split; [exact Hnth|]. split; [exact Hn|].
      intros [|m] item'' Hm Hnth'.
      * cbn in Hnth'. injection Hnth' as <-. exact E.
      * apply (Hbefore m); [lia | exact Hnth'].
Qed.

Lemma hit_or_miss (p : image.Point) (s : list Item) :
  (forall item, In item s -> image.In p (Rect item) = false) \/
  (exists item, In item s /\ image.In p (Rect item) = true).
Proof.
  induction s as [|item s IH].
  - left. intros item [].
  - destruct (image.In p (Rect item)) eqn:E.
    + right. exists item. split; [left; reflexivity | exact E].
    + destruct IH as [IH | (found & Hin & Hhit)].
      * left. intros item' [<- | Hin]; [exact E | apply IH, Hin].
      * right. exists found. split; [right; exact Hin | exact Hhit].
Qed.

(** X13. [getItemIndexByPos] leaves the tracker as it is and returns -1
    when no item of the catalog has the point in its [Rect], and otherwise
    the index of the first item of the catalog that has: where rectangles
    overlap, the earlier item wins. *)
Theorem getItemIndexByPos_first (tracker : Tracker) (x y : Z) :
  let p := image.mkPoint x y in
  let k := evalState (getItemIndexByPos x y) tracker in
  execState (getItemIndexByPos x y) tracker = tracker /\
  ((k = -1 /\
    forall item, In item (items tracker) -> image.In p (Rect item) = false) \/
   (0 <= k /\
    exists item,
      index (items tracker) k = Some item /\
      image.In p (Rect item) = true /\
      forall (j : Z) (item' : Item),
        j < k -> index (items tracker) j = Some item' ->
        image.In p (Rect item') = false)).
Proof.
  cbv zeta. split; [reflexivity|].
  change (evalState (getItemIndexByPos x y) tracker)
    with (indexByPosFrom (image.mkPoint x y) 0 (items tracker)).
  destruct (hit_or_miss (image.mkPoint x y) (items tracker)) as [Hnone | Hhit].
  - left. split; [apply indexByPosFrom_none, Hnone | exact Hnone].
  - right.
    destruct (indexByPosFrom_first _ _ 0 Hhit)
      as (n & item & Hidx & Hnth & Hin & Hbefore).
    rewrite Hidx. split; [lia|]. exists item.
    split; [apply index_of_nat, Hnth|]. split; [exact Hin|].
    intros j item' Hj Hget. apply index_to_nat in Hget as [Hj0 Hget].
    apply (Hbefore (Z.to_nat j)); [lia | exact Hget].
Qed.

(** ** Clicks and the wheel *)

Lemma setNth_same {A : Type} (s : list A) (n : nat) (x : A) :
  nth_error s n = Some x -> setNth n x s = s.
Proof.
  revert n. induction s as [|a s IH]; intros [|n] Hnth; try discriminate.
  - cbn in *. congruence.
  - cbn in *. f_equal. apply IH, Hnth.
Qed.

Lemma setNth_read {A : Type} (s : list A) (n : nat) (x : A) :
  (n < List.length s)%nat -> nth_error (setNth n x s) n = Some x.
Proof.
  revert n. induction s as [|a s IH]; intros [|n] Hn; cbn in *; try lia.
  - reflexivity.
  - apply IH. lia.
Qed.

Lemma setNth_other {A : Type} (s : list A) (n m : nat) (x : A) :
  n <> m -> nth_error (setNth n x s) m = nth_error s m.
Proof.
  revert n m. induction s as [|a s IH]; intros [|n] [|m] Hnm; cbn;
    try reflexivity; try congruence.
  apply IH. congruence.
Qed.

Lemma setNth_length {A : Type} (s : list A) (n : nat) (x : A) :
  List.length (setNth n x s) = List.length s.
Proof.
  revert n. induction s as [|a s IH]; intros [|n]; cbn; try reflexivity.
  f_equal. apply IH.
Qed.

Lemma index_setNth {A : Type} (s : list A) (i : Z) (x y : A) :
  index s i = Some x -> index (setNth (Z.to_nat i) y s) i = Some y.
Proof.
  intros Hget. apply index_to_nat in Hget as [Hi Hnth].
  assert (Hlt : (Z.to_nat i < List.length s)%nat)
    by (apply nth_error_Some; congruence).
  unfold index, len. rewrite setNth_length.
  destruct (Z.leb_spec 0 i); [|lia].
  destruct (Z.ltb_spec i (Z.of_nat (List.length s))); [|lia].
  cbn [andb]. apply setNth_read, Hlt.
Qed.

Lemma withItems_same (tracker : Tracker) :
  withItems (items tracker) tracker = tracker.
Proof. destruct tracker. reflexivity. Qed.

Lemma put_back (tracker : Tracker) (i : Z) (item : Item) :
  index (items tracker) i = Some item ->
  withItems (setNth (Z.to_nat i) item (items tracker)) tracker = tracker.
Proof.
  intros Hget. apply index_to_nat in Hget as [_ Hget].
  rewrite (setNth_same _ _ _ Hget). apply withItems_same.
Qed.

Section PointerProperties.

Variable appendToUndoStack : Z -> bool -> panicking unit.

Lemma changeItem_run (tracker : Tracker) (itemIndex : Z) (isUpgrade : bool) :
  runStateT (changeItem appendToUndoStack itemIndex isUpgrade) tracker =
  match index (items tracker) itemIndex with
  | None => None
  | Some item =>
      let (changed, item') :=
        runState (if isUpgrade then Upgrade else Downgrade) item in
      let tracker' :=
        withItems (setNth (Z.to_nat itemIndex) item' (items tracker)) tracker in
      if changed then runStateT (appendToUndoStack itemIndex isUpgrade) tracker'
      else Some (tt, tracker')
  end.
Proof.
  unfold changeItem, onItem. cbn.
  destruct (index (items tracker) itemIndex) as [item|]; [|reflexivity].
  destruct (runState (if isUpgrade then Upgrade else Downgrade) item)
    as [[] item']; reflexivity.
Qed.

Lemma click_run (tracker : Tracker) (x y : Z) (isUpgrade : bool) :
  runStateT (if isUpgrade then ClickLeft appendToUndoStack x y
             else ClickRight appendToUndoStack x y) tracker =
  if evalState (getItemIndexByPos x y) tracker <? 0 then Some (tt, tracker)
  else runStateT (changeItem appendToUndoStack
                    (evalState (getItemIndexByPos x y) tracker) isUpgrade)
                 tracker.
Proof.
  destruct isUpgrade; unfold ClickLeft, ClickRight, total, evalState; cbn;
    destruct (indexByPosFrom _ 0 (items tracker) <? 0); reflexivity.
Qed.

Lemma unaffected (isUpgrade : bool) (item : Item) :
  fst (runState (if isUpgrade then Upgrade else Downgrade) item) = false ->
  snd (runState (if isUpgrade then Upgrade else Downgrade) item) = item.
Proof.
  destruct isUpgrade; [rewrite Upgrade_run | rewrite Downgrade_run];
    destruct (negb _); try discriminate; try reflexivity;
    destruct (IsCountable item); try discriminate;
    destruct (_ || _); try discriminate; reflexivity.
Qed.

(** X14. [changeItem] panics when its index is not an index of the
    catalog, whatever [appendToUndoStack] does; this is so for the index
    [getItemIndexByName] returns for a name the catalog does not have. *)
Theorem changeItem_out_of_range (tracker : Tracker) (isUpgrade : bool) :
  (forall itemIndex : Z,
     index (items tracker) itemIndex = None ->
     runStateT (changeItem appendToUndoStack itemIndex isUpgrade) tracker
     = None) /\
  (forall name : string,
     (forall item, In item (items tracker) -> Name item <> name) ->
     runStateT (changeItem appendToUndoStack
                  (evalState (getItemIndexByName name) tracker) isUpgrade)
               tracker
     = None).
Proof.
  split.
  - intros itemIndex Hout. rewrite changeItem_run, Hout. reflexivity.
  - intros name Habsent. rewrite changeItem_run.
    change (evalState (getItemIndexByName name) tracker)
      with (indexByNameFrom name 0 (items tracker)).
    rewrite (indexByNameFrom_absent _ _ _ Habsent). reflexivity.
Qed.

(** X15. A click where no item is leaves the tracker as it is. A click on
    an item addresses the first item under the point, never panics by
    itself, and leaves the tracker as it is when [Upgrade] (left button) or
    [Downgrade] (right button) returns false; when it returns true the
    item is replaced in place and [appendToUndoStack] runs with its index
    and the direction. *)
Theorem click_cases (tracker : Tracker) (x y : Z) (isUpgrade : bool) :
  let click := if isUpgrade then ClickLeft appendToUndoStack x y
               else ClickRight appendToUndoStack x y in
  let k := evalState (getItemIndexByPos x y) tracker in
  (k < 0 -> runStateT click tracker = Some (tt, tracker)) /\
  (0 <= k ->
   exists item,
     index (items tracker) k = Some item /\
     image.In (image.mkPoint x y) (Rect item) = true /\
     let result := runState (if isUpgrade then Upgrade else Downgrade) item in
     (fst result = false -> runStateT click tracker = Some (tt, tracker)) /\
     (fst result = true ->
        runStateT click tracker =
        runStateT (appendToUndoStack k isUpgrade)
          (withItems (setNth (Z.to_nat k) (snd result) (items tracker))
                     tracker))).
Proof.
  cbv zeta. rewrite click_run.
  split.
  - intros Hmiss. destruct (Z.ltb_spec (evalState (getItemIndexByPos x y) tracker) 0);
      [reflexivity | lia].
  - intros Hhit.
    destruct (Z.ltb_spec (evalState (getItemIndexByPos x y) tracker) 0); [lia|].
    change (evalState (getItemIndexByPos x y) tracker)
      with (indexByPosFrom (image.mkPoint x y) 0 (items tracker)) in *.
    destruct (hit_or_miss (image.mkPoint x y) (items tracker)) as [Hnone | Hsome].
    { rewrite (indexByPosFrom_none _ _ 0 Hnone) in Hhit. lia. }
    destruct (indexByPosFrom_first _ _ 0 Hsome)
      as (n & item & Hidx & Hnth & Hin & _).
    rewrite Hidx. exists item.
    pose proof (index_of_nat _ _ _ Hnth) as Hget. cbn [Z.add] in *.
    split; [exact Hget|]. split; [exact Hin|].
    rewrite changeItem_run, Hget.
    pose proof (unaffected isUpgrade item) as Hsame.
    destruct (runState (if isUpgrade then Upgrade else Downgrade) item)
      as [changed item']. cbn [fst snd] in *.
    split; intros ->; [|reflexivity].
    rewrite Hsame by reflexivity.
    rewrite (put_back _ _ _ Hget). reflexivity.
Qed.

Lemma Wheel_run (tracker : Tracker) (x y : Z) (up : bool) :
  runStateT (Wheel appendToUndoStack x y up) tracker =
  let k := evalState (getItemIndexByPos x y) tracker in
  if k <? 0 then Some (tt, tracker)
  else
    match index (items tracker) k with
    | None => None
    | Some item =>
        if IsMedallion item then
          Some (tt, withItems (setNth (Z.to_nat k)
                                 (execState (CycleTemple up) item)
                                 (items tracker)) tracker)
        else
          runStateT (if up then ClickLeft appendToUndoStack x y
                     else ClickRight appendToUndoStack x y) tracker
    end.
Proof.
  unfold Wheel, total, itemAt, onItem, evalState, execState.
  cbn -[ClickLeft ClickRight CycleTemple].
  destruct (indexByPosFrom (image.mkPoint x y) 0 (items tracker) <? 0);
    [reflexivity|].
  cbn -[ClickLeft ClickRight CycleTemple].
  destruct (index (items tracker) _) as [item|] eqn:Hget; [|reflexivity].
  destruct (IsMedallion item); cbn -[ClickLeft ClickRight CycleTemple].
  - rewrite ?Hget, CycleTemple_run. reflexivity.
  - destruct up; reflexivity.
Qed.

(** X16. The wheel over a medallion only cycles its temple label: the item
    is replaced in place by the one [CycleTemple] leaves, with its
    [Enabled], [upgradeIndex] and [count] as they were, [appendToUndoStack]
    does not run, and the undo and redo stacks are as they were. *)
Theorem Wheel_medallion (tracker : Tracker) (x y : Z) (up : bool)
        (item : Item) :
  let k := evalState (getItemIndexByPos x y) tracker in
  0 <= k -> index (items tracker) k = Some item -> IsMedallion item = true ->
  let item' := execState (CycleTemple up) item in
  let tracker' :=
    withItems (setNth (Z.to_nat k) item' (items tracker)) tracker in
  runStateT (Wheel appendToUndoStack x y up) tracker = Some (tt, tracker') /\
  index (items tracker') k = Some item' /\
  Enabled item' = Enabled item /\ upgradeIndex item' = upgradeIndex item /\
  count item' = count item /\
  undoStack tracker' = undoStack tracker /\
  redoStack tracker' = redoStack tracker.
Proof.
  cbv zeta. intros Hk Hget Hmedal. rewrite Wheel_run. cbv zeta.
  destruct (Z.ltb_spec (evalState (getItemIndexByPos x y) tracker) 0); [lia|].
  rewrite Hget, Hmedal. split; [reflexivity|].
  split.
  - cbn [items withItems]. apply (index_setNth _ _ item), Hget.
  - unfold execState. rewrite CycleTemple_run. cbn. auto.
Qed.

(** X17. The wheel over an item that is not a medallion is the left click
    when it turns up and the right click when it turns down, and the wheel
    where no item is leaves the tracker as it is. *)
Theorem Wheel_click (tracker : Tracker) (x y : Z) (up : bool) :
  let k := evalState (getItemIndexByPos x y) tracker in
  (k < 0 ->
     runStateT (Wheel appendToUndoStack x y up) tracker = Some (tt, tracker)) /\
  (forall item : Item,
     0 <= k -> index (items tracker) k = Some item ->
     IsMedallion item = false ->
     runStateT (Wheel appendToUndoStack x y up) tracker =
     runStateT (if up then ClickLeft appendToUndoStack x y
                else ClickRight appendToUndoStack x y) tracker).
Proof.
  cbv zeta. rewrite Wheel_run. cbv zeta. split.
  - intros Hmiss.
    destruct (Z.ltb_spec (evalState (getItemIndexByPos x y) tracker) 0);
      [reflexivity | lia].
  - intros item Hk Hget Hplain.
    destruct (Z.ltb_spec (evalState (getItemIndexByPos x y) tracker) 0); [lia|].
    rewrite Hget, Hplain. reflexivity.
Qed.

(** X18. When [GetZoneItemIndex] returns an index without an error, both
    digits are in [[1, 9]], the index is an index of the catalog, and the
    item there has the non-empty name of the addressed cell: [changeItem]
    called with that index finds its item. *)
Theorem GetZoneItemIndex_success (tracker : Tracker) (zoneKP itemKP k : Z)
        (isUpgrade : bool) :
  evalState (GetZoneItemIndex zoneKP itemKP) tracker = (k, None) ->
  1 <= zoneKP <= 9 /\ 1 <= itemKP <= 9 /\
  exists item,
    index (items tracker) k = Some item /\
    Name item = cell (zoneItemMap tracker) (zoneKP - 1) (itemKP - 1) /\
    Name item <> ""%string /\
    runStateT (changeItem appendToUndoStack k isUpgrade) tracker =
    let (changed, item') :=
      runState (if isUpgrade then Upgrade else Downgrade) item in
    let tracker' :=
      withItems (setNth (Z.to_nat k) item' (items tracker)) tracker in
    if changed then runStateT (appendToUndoStack k isUpgrade) tracker'
    else Some (tt, tracker').
Proof.
  unfold evalState. rewrite GetZoneItemIndex_run. cbn [fst].
  rewrite GetZoneItem_run.
  destruct (Z.leb_spec zoneKP 0); cbn [orb]; [discriminate|].
  rewrite Z.gtb_ltb. destruct (Z.ltb_spec 9 zoneKP); [discriminate|].
  destruct (Z.leb_spec itemKP 0); cbn [orb]; [discriminate|].
  rewrite Z.gtb_ltb. destruct (Z.ltb_spec 9 itemKP); [discriminate|].
  set (name := cell (zoneItemMap tracker) (zoneKP - 1) (itemKP - 1)).
  destruct (String.eqb_spec name "") as [Hempty | Hname]; [discriminate|].
  destruct (Z.ltb_spec (indexByNameFrom name 0 (items tracker)) 0) as [Hneg | Hpos];
    [discriminate|].
  intros Hk. injection Hk as Hk.
  split; [lia|]. split; [lia|].
  assert (Hex : exists item, In item (items tracker) /\ Name item = name).
  { destruct (items tracker) as [|first s] eqn:Hitems; [cbn in Hpos; lia|].
    rewrite <- Hitems in *. clear Hitems first s.
    induction (items tracker) as [|item s IH] in Hpos, Hk |- *;
      [cbn in Hpos; lia|].
    destruct (String.eqb_spec (Name item) name) as [E | E].
    - exists item. split; [left; reflexivity | exact E].
    - assert (Habs : (forall it, In it s -> Name it <> name) \/
                     (exists it, In it s /\ Name it = name)).
      { clear. induction s as [|a s IHs].
        - left. intros it [].
        - destruct (String.eqb_spec (Name a) name) as [Ea | Ea].
          + right. exists a. split; [left; reflexivity | exact Ea].
          + destruct IHs as [IHs | (it & Hin & Hit)].
            * left. intros it [<- | Hin]; [exact Ea | apply IHs, Hin].
            * right. exists it. split; [right; exact Hin | exact Hit]. }
      destruct Habs as [Habs | (it & Hin & Hit)].
      + exfalso. cbn [indexByNameFrom] in Hpos.
        apply String.eqb_neq in E. rewrite E in Hpos.
        rewrite (indexByNameFrom_absent _ _ _ Habs) in Hpos. lia.
      + exists it. split; [right; exact Hin | exact Hit]. }
  destruct (indexByNameFrom_first name (items tracker) 0 Hex)
    as (n & item & Hidx & Hnth & Hitem & _).
  exists item. rewrite <- Hk, Hidx. cbn [Z.add].
  pose proof (index_of_nat _ _ _ Hnth) as Hget.
  split; [exact Hget|]. split; [exact Hitem|].
  split; [rewrite Hitem; exact Hname|].
  rewrite changeItem_run, Hget. reflexivity.
Qed.

End PointerProperties.

Lemma changeItem_out_of_range_witness :
  runStateT (changeItem recordChange 7 true) someTracker = None /\
  runStateT (changeItem recordChange
               (evalState (getItemIndexByName "Kokiri Tunic") someTracker) true)
            someTracker = None.
Proof.
  split.
  - apply (proj1 (changeItem_out_of_range recordChange someTracker true)).
    reflexivity.
  - apply (proj2 (changeItem_out_of_range recordChange someTracker true)).
    intros item [<- | [<- | [<- | []]]]; discriminate.
Defined.

Lemma click_cases_witness :
  runStateT (ClickLeft recordChange 0 0) medalTracker
  = Some (tt, medalTracker) /\
  runStateT (ClickLeft recordChange 100 20) medalTracker
  = Some (tt, mkTracker [with_Enabled true bombBag; medallion] [] []
                (mkKbInput inputStateIdle ""%string 0)
                [] [] (repeat ""%string 7) []
                [mkUndoStackEntry 0 true] []) /\
  runStateT (ClickLeft recordChange 100 20) topTracker
  = Some (tt, topTracker) /\
  runStateT (ClickRight recordChange 100 20) topTracker
  = Some (tt, mkTracker [with_Enabled true (with_upgradeIndex 1 bombBag);
                         medallion] [] []
                (mkKbInput inputStateIdle ""%string 0)
                [] [] (repeat ""%string 7) []
                [mkUndoStackEntry 0 false] []).
Proof.
  assert (Hhit : forall t : Tracker,
             items t = items medalTracker \/ items t = items topTracker ->
             0 <= evalState (getItemIndexByPos 100 20) t).
  { intros t [Ht | Ht]; unfold evalState, getItemIndexByPos; cbn;
      rewrite Ht; vm_compute; discriminate. }
  repeat apply conj.
  - apply (proj1 (click_cases recordChange medalTracker 0 0 true)).
    vm_compute. reflexivity.
  - destruct (proj2 (click_cases recordChange medalTracker 100 20 true)
                    (Hhit medalTracker (or_introl eq_refl)))
      as (item & Hget & _ & _ & Hchanged).
    assert (Hitem : item = bombBag) by (vm_compute in Hget; injection Hget as <-; reflexivity).
    subst item. rewrite (Hchanged eq_refl). reflexivity.
  - destruct (proj2 (click_cases recordChange topTracker 100 20 true)
                    (Hhit topTracker (or_intror eq_refl)))
      as (item & Hget & _ & Hsame & _).
    assert (Hitem : item = with_Enabled true (with_upgradeIndex 2 bombBag))
      by (vm_compute in Hget; injection Hget as <-; reflexivity).
    subst item. apply Hsame. reflexivity.
  - destruct (proj2 (click_cases recordChange topTracker 100 20 false)
                    (Hhit topTracker (or_intror eq_refl)))
      as (item & Hget & _ & _ & Hchanged).
    assert (Hitem : item = with_Enabled true (with_upgradeIndex 2 bombBag))
      by (vm_compute in Hget; injection Hget as <-; reflexivity).
    subst item. rewrite (Hchanged eq_refl). reflexivity.
Defined.

Lemma Wheel_medallion_witness :
  runStateT (Wheel recordChange 10 100 true) medalTracker
  = Some (tt, withItems [bombBag; with_templeIndex 1 medallion] medalTracker).
Proof.
  refine (proj1 (Wheel_medallion recordChange medalTracker 10 100 true
                   medallion _ _ _)).
  - vm_compute. discriminate.
  - reflexivity.
  - reflexivity.
Defined.

Lemma Wheel_click_witness :
  runStateT (Wheel recordChange 0 0 true) medalTracker
  = Some (tt, medalTracker) /\
  runStateT (Wheel recordChange 100 20 true) medalTracker
  = runStateT (ClickLeft recordChange 100 20) medalTracker.
Proof.
  split.
  - apply (proj1 (Wheel_click recordChange medalTracker 0 0 true)).
    vm_compute. reflexivity.
  - refine (proj2 (Wheel_click recordChange medalTracker 100 20 true)
                  bombBag _ _ _).
    + vm_compute. discriminate.
    + reflexivity.
    + reflexivity.
Defined.

Lemma GetZoneItemIndex_success_witness :
  1 <= 5 <= 9 /\ 1 <= 5 <= 9 /\
  exists item,
    index (items someTracker) 1 = Some item /\
    Name item = cell (zoneItemMap someTracker) (5 - 1) (5 - 1) /\
    Name item <> ""%string /\
    runStateT (changeItem recordChange 1 true) someTracker =
    let (changed, item') := runState Upgrade item in
    let tracker' :=
      withItems (setNth (Z.to_nat 1) item' (items someTracker)) someTracker in
    if changed then runStateT (recordChange 1 true) tracker'
    else Some (tt, tracker').
Proof.
  apply (GetZoneItemIndex_success recordChange someTracker 5 5 1 true).
  reflexivity.
Defined.

(** * Properties of the drawing *)

(** X19. [drawActiveItemSlot] draws nothing for a slot outside [[1, 9]] and
    one rectangle inside the board of 378 by 378 pixels otherwise: the
    square of 126 pixels at the keypad position of the slot (1 to 3 on the
    bottom row, 7 to 9 on the top row), except that 9 and 3 get the upper
    and lower half of the column of 42 pixels at x = 252. *)
Theorem drawActiveItemSlot_cases (slot : Z) :
  (slot <= 0 \/ 9 < slot -> drawActiveItemSlot slot = Some []) /\
  (1 <= slot <= 9 ->
   exists x y w h,
     drawActiveItemSlot slot = Some [DrawRect x y w h] /\
     0 <= x /\ 0 <= y /\ 0 < w /\ 0 < h /\ x + w <= 378 /\ y + h <= 378) /\
  (1 <= slot <= 9 -> slot <> 3 -> slot <> 9 ->
   drawActiveItemSlot slot
   = Some [DrawRect ((slot - 1) mod 3 * 126) ((2 - (slot - 1) / 3) * 126)
                    126 126]) /\
  drawActiveItemSlot 9 = Some [DrawRect 252 0 42 189] /\
  drawActiveItemSlot 3 = Some [DrawRect 252 189 42 189].
Proof.
  repeat apply conj.
  - intros Hout. unfold drawActiveItemSlot. rewrite Z.gtb_ltb.
    destruct (Z.leb_spec slot 0); [reflexivity|].
    destruct (Z.ltb_spec 9 slot); [reflexivity | lia].
  - intros Hin.
    assert (Hslot : slot = 1 \/ slot = 2 \/ slot = 3 \/ slot = 4 \/ slot = 5 \/
                    slot = 6 \/ slot = 7 \/ slot = 8 \/ slot = 9) by lia.
    repeat (destruct Hslot as [-> | Hslot]); try subst slot;
      vm_compute; do 4 eexists; (split; [reflexivity|]);
      repeat split; discriminate.
  - intros Hin H3 H9.
    assert (Hslot : slot = 1 \/ slot = 2 \/ slot = 4 \/ slot = 5 \/
                    slot = 6 \/ slot = 7 \/ slot = 8) by lia.
    repeat (destruct Hslot as [-> | Hslot]); try subst slot; reflexivity.
  - reflexivity.
  - reflexivity.
Qed.

Lemma drawActiveItemSlot_cases_witness :
  drawActiveItemSlot 12 = Some [] /\
  drawActiveItemSlot 5 = Some [DrawRect 126 126 126 126].
Proof.
  split.
  - apply (proj1 (drawActiveItemSlot_cases 12)). right. lia.
  - apply (proj1 (proj2 (proj2 (drawActiveItemSlot_cases 5)))); lia.
Defined.

Lemma TempleText_label (item : Item) :
  0 <= templeIndex item < 10 ->
  TempleText item = Some (nth (Z.to_nat (templeIndex item)) temples ""%string).
Proof.
  intros Hrange. unfold TempleText, index. rewrite len_temples.
  destruct (Z.leb_spec 0 (templeIndex item)); [|lia].
  destruct (Z.ltb_spec (templeIndex item) 10); [|lia].
  cbn [andb]. apply nth_error_nth'.
  change (List.length temples) with 10%nat. lia.
Qed.

Lemma TempleText_panics (item : Item) :
  ~ 0 <= templeIndex item < 10 -> TempleText item = None.
Proof.
  intros Hout. unfold TempleText, index. rewrite len_temples.
  destruct (Z.leb_spec 0 (templeIndex item)); [|reflexivity].
  destruct (Z.ltb_spec (templeIndex item) 10); [lia | reflexivity].
Qed.

(** X20. [drawTemples] draws one label for each medallion of the catalog,
    enabled or not, in the order of the catalog, and nothing for the other
    items, when the temple index of every medallion is an index of the
    label table; it panics when that of some medallion is not. *)
Theorem drawTemples_labels (tracker : Tracker) :
  ((forall item, In item (items tracker) -> IsMedallion item = true ->
      0 <= templeIndex item < 10) ->
   runStateT drawTemples tracker
   = Some (map templeLabel (filter IsMedallion (items tracker)), tracker)) /\
  ((exists item, In item (items tracker) /\ IsMedallion item = true /\
      ~ 0 <= templeIndex item < 10) ->
   runStateT drawTemples tracker = None).
Proof.
  unfold drawTemples. cbn [runStateT].
  split.
  - intros Hrange.
    assert (Hall : drawTemplesOf (items tracker)
                   = Some (map templeLabel (filter IsMedallion (items tracker)))).
    { induction (items tracker) as [|item s IH]; [reflexivity|].
      cbn [drawTemplesOf filter].
      destruct (IsMedallion item) eqn:Hmedal; cbn [negb].
      - rewrite (TempleText_label item)
          by (apply Hrange; [left; reflexivity | exact Hmedal]).
        rewrite IH by (intros item' Hin; apply Hrange; right; exact Hin).
        reflexivity.
      - apply IH. intros item' Hin. apply Hrange. right. exact Hin. }
    rewrite Hall. reflexivity.
  - intros (bad & Hin & Hmedal & Hout).
    assert (Hnone : drawTemplesOf (items tracker) = None).
    { induction (items tracker) as [|item s IH]; [destruct Hin|].
      cbn [drawTemplesOf].
      destruct Hin as [-> | Hin].
      - rewrite Hmedal, (TempleText_panics bad Hout). reflexivity.
      - rewrite (IH Hin). destruct (negb _); [reflexivity|].
        destruct (TempleText item); reflexivity. }
    rewrite Hnone. reflexivity.
Qed.

Lemma drawTemples_labels_witness :
  runStateT drawTemples medalTracker
  = Some ([text_Draw ""%string fontTemple 4 122], medalTracker).
Proof.
  refine (proj1 (drawTemples_labels medalTracker) _).
  intros item [<- | [<- | []]] _; cbn; lia.
Defined.

Lemma Capacity_needs_progression (item : Item) :
  Capacity item = None -> HasCapacity item = true.
Proof.
  unfold Capacity. destruct (HasCapacity item); [reflexivity | discriminate].
Qed.

Lemma drawCapacity_panics (item : Item) :
  Capacity item = None -> drawCapacity item = None.
Proof.
  intros Hnone. unfold drawCapacity.
  rewrite (Capacity_needs_progression item Hnone), Hnone. reflexivity.
Qed.

Lemma drawCapacity_shown (item : Item) :
  Capacity item <> None ->
  if showsNumber item
  then exists c, drawCapacity item = Some (Some c) /\
                 drawnText c = numberShown item
  else drawCapacity item = Some None.
Proof.
  intros Hsome. unfold showsNumber, drawCapacity, numberShown.
  destruct (HasCapacity item) eqn:Hcap; cbn [orb].
  - destruct (Capacity item) as [c|]; [|contradiction].
    destruct (Enabled item); cbn [andb negb]; [|reflexivity].
    destruct (Name item =? "Gold Skulltula Token")%string;
      [destruct (c =? 100); [|destruct (c <? 10)]|]; eauto.
  - destruct (IsCountable item); [|rewrite andb_false_r; reflexivity].
    rewrite andb_true_r. unfold Count.
    destruct (Enabled item); cbn [negb]; [|reflexivity].
    destruct (Name item =? "Gold Skulltula Token")%string;
      [destruct (count item =? 100); [|destruct (count item <? 10)]|]; eauto.
Qed.

(** X21. [drawCapacities] panics when [Capacity] panics for some item of
    the catalog, enabled or not. Otherwise it draws, in the order of the
    catalog, one number for each enabled item that has a
    [CapacityProgression] or is countable: its [Capacity] if it has a
    [CapacityProgression], else its count; a disabled item shows
    nothing. *)
Theorem drawCapacities_numbers (tracker : Tracker) :
  ((exists item, In item (items tracker) /\ Capacity item = None) ->
   runStateT drawCapacities tracker = None) /\
  ((forall item, In item (items tracker) -> Capacity item <> None) ->
   exists calls,
     runStateT drawCapacities tracker = Some (calls, tracker) /\
     map drawnText calls
     = map numberShown (filter showsNumber (items tracker))).
Proof.
  unfold drawCapacities. cbn [runStateT].
  split.
  - intros (bad & Hin & Hnone).
    assert (Hall : drawCapacitiesOf (items tracker) = None).
    { induction (items tracker) as [|item s IH]; [destruct Hin|].
      cbn [drawCapacitiesOf].
      destruct Hin as [-> | Hin].
      - rewrite (drawCapacity_panics bad Hnone). reflexivity.
      - rewrite (IH Hin). destruct (drawCapacity item); reflexivity. }
    rewrite Hall. reflexivity.
  - intros Hsome.
    assert (Hall : exists calls,
               drawCapacitiesOf (items tracker) = Some calls /\
               map drawnText calls
               = map numberShown (filter showsNumber (items tracker))).
    { induction (items tracker) as [|item s IH]; [exists []; auto|].
      destruct IH as (calls & Hrest & Htexts);
        [intros item' Hin; apply Hsome; right; exact Hin|].
      pose proof (drawCapacity_shown item (Hsome item (or_introl eq_refl)))
        as Hitem.
      cbn [drawCapacitiesOf filter]. rewrite Hrest.
      destruct (showsNumber item).
      - destruct Hitem as (c & -> & Htext). exists (c :: calls).
        cbn [map]. rewrite Htext, Htexts. auto.
      - rewrite Hitem. exists calls. auto. }
    destruct Hall as (calls & -> & Htexts). exists calls. auto.
Qed.

Lemma drawCapacities_numbers_witness :
  runStateT drawCapacities
    (withItems [with_Enabled true (with_upgradeIndex 2 wallet)] medalTracker)
  = None /\
  exists calls,
    runStateT drawCapacities
      (withItems [with_count 7 (with_Enabled true skullToken); bombBag;
                  with_Enabled true (with_upgradeIndex 1 bombBag)]
                 medalTracker)
    = Some (calls,
            withItems [with_count 7 (with_Enabled true skullToken); bombBag;
                       with_Enabled true (with_upgradeIndex 1 bombBag)]
                      medalTracker) /\
    map drawnText calls = ["7"; "30"]%string.
Proof.
  split.
  - apply (proj1 (drawCapacities_numbers _)).
    exists (with_Enabled true (with_upgradeIndex 2 wallet)).
    split; [left; reflexivity | reflexivity].
  - destruct (proj2 (drawCapacities_numbers
                       (withItems [with_count 7 (with_Enabled true skullToken);
                                   bombBag;
                                   with_Enabled true (with_upgradeIndex 1 bombBag)]
                                  medalTracker)))
      as (calls & Hrun & Htexts).
    + intros item [<- | [<- | [<- | []]]]; discriminate.
    + exists calls. split; [exact Hrun | exact Htexts].
Defined.

Lemma getItemIndexByPos_first_witness :
  execState (getItemIndexByPos 10 100) medalTracker = medalTracker /\
  ((1 = -1 /\
    forall item, In item (items medalTracker) ->
                 image.In (image.mkPoint 10 100) (Rect item) = false) \/
   (0 <= 1 /\
    exists item,
      index (items medalTracker) 1 = Some item /\
      image.In (image.mkPoint 10 100) (Rect item) = true /\
      forall (j : Z) (item' : Item),
        j < 1 -> index (items medalTracker) j = Some item' ->
        image.In (image.mkPoint 10 100) (Rect item') = false)).
Proof.
  exact (getItemIndexByPos_first medalTracker 10 100).
Defined.
